(** * Service worker of the Vivo Mas storefront (sw.js)

    A shallow embedding of [sw.js]: the module constants, the three URL
    predicates, the dispatch of the [fetch] handler, the three caching
    strategies and the [install], [activate] and [message] handlers, over an
    explicit model of the host's [CacheStorage] and network. *)

From Stdlib Require Import String Ascii List NArith Bool Lia.
From stdpp Require Import base strings list gmap.
Import ListNotations.

Local Open Scope string_scope.
Local Open Scope list_scope.

(** ** Strings *)

(** [String.prototype.includes]: [includes url piece] is [url.includes(piece)],
    true when [piece] occurs in [url] as a contiguous run of characters. *)
Fixpoint includes (url piece : string) : bool :=
  if String.prefix piece url then true
  else match url with
       | EmptyString => false
       | String _ rest => includes rest piece
       end.

(** The optional call [x?.includes(piece)] used as a condition: a missing
    receiver ([null]) gives [undefined], which is falsy. *)
Definition opt_includes (x : option string) (piece : string) : bool :=
  match x with
  | Some s => includes s piece
  | None => false
  end.

(** [endsWith] is not used by [sw.js]; it states what "ends in" means. *)
Definition endsWith (s suffix : string) : bool :=
  String.prefix (String.rev suffix) (String.rev s).

(** ** Configuration: the module-level constants *)

Record Config := {
  CACHE_NAME : string;
  STATIC_CACHE : string;
  DYNAMIC_CACHE : string;
  STATIC_ASSETS : list string;
  PRODUCT_IMAGES : list string;
  BRANCH_IMAGES : list string
}.

(** The constants as [sw.js] declares them (lines 2-37). *)
Definition sw : Config := {|
  CACHE_NAME := "vivomas-v1.0.0";
  STATIC_CACHE := "vivomas-static-v1";
  DYNAMIC_CACHE := "vivomas-dynamic-v1";
  STATIC_ASSETS :=
    [ "/";
      "/index.html";
      "/src/main.jsx";
      "/src/App.jsx";
      "/src/App.css";
      "/src/index.css";
      "/logo-vivomas-transparente.png";
      "/Logo-Vivo-Mas-Icono.png";
      "/logo-vivomas-2.png";
      "/manifest.json" ];
  PRODUCT_IMAGES :=
    [ "/productos/citrato_magnesio.png";
      "/productos/citrato_potasio.png";
      "/productos/vitamina_d3.png";
      "/productos/colageno_hidrolizado.png";
      "/productos/blistex_variedades.png";
      "/productos/test_embarazo_cassette.png" ];
  BRANCH_IMAGES :=
    [ "/sucursal_castellon.jpg";
      "/sucursal_ohiggins.jpg";
      "/sucursal_chillan.jpg";
      "/sucursal_yumbel.jpg";
      "/sucursal_rengo.png" ]
|}.

(** ** Requests and responses *)

Record Request := {
  method : string;
  url : string;                (* [request.url], the serialised absolute URL *)
  accept : option string       (* [request.headers.get('accept')] *)
}.

Record Response := {
  status : N;
  headers : list (string * string);
  body : string
}.

(** [response.ok]: the status is in the range 200-299. *)
Definition ok (r : Response) : bool :=
  (200 <=? status r)%N && (status r <=? 299)%N.

(** ** The URL predicates (lines 194-219) *)

Definition isStaticAsset (cfg : Config) (u : string) : bool :=
  existsb (fun asset => includes u asset) (STATIC_ASSETS cfg) ||
  includes u ".css" ||
  includes u ".js" ||
  includes u ".woff" ||
  includes u ".woff2".

Definition isImage (u : string) : bool :=
  includes u ".jpg" ||
  includes u ".jpeg" ||
  includes u ".png" ||
  includes u ".webp" ||
  includes u ".svg" ||
  includes u "/productos/" ||
  includes u "/sucursal_" ||
  includes u "/convenios/".

Definition isExternalAPI (u : string) : bool :=
  includes u "wa.me" ||
  includes u "google.com/maps" ||
  includes u "facebook.com" ||
  includes u "instagram.com" ||
  includes u "googleapis.com".

(** ** Dispatch of the fetch handler (lines 85-118) *)

(** The branch of the handler a GET request takes, under the spec's names
    for the five resource classes. *)
Inductive ResourceClass :=
  | StaticAsset
  | Image
  | Document
  | ExternalAPI
  | Other.

Inductive Strategy :=
  | CacheFirst
  | NetworkFirst
  | NetworkWithTimeout (timeout : N).

(** The cascade of guards of the handler, in the order it tests them. *)
Definition classify (cfg : Config) (request : Request) : ResourceClass :=
  if isStaticAsset cfg (url request) then StaticAsset
  else if isImage (url request) then Image
  else if opt_includes (accept request) "text/html" then Document
  else if isExternalAPI (url request) then ExternalAPI
  else Other.

(** What each branch passes to [event.respondWith]. *)
Definition strategy_of (c : ResourceClass) : Strategy :=
  match c with
  | StaticAsset => CacheFirst
  | Image => NetworkFirst
  | Document => NetworkFirst
  | ExternalAPI => NetworkWithTimeout 5000
  | Other => NetworkFirst
  end.

(** The handler's decision: [None] when it returns without calling
    [event.respondWith] (line 90), otherwise the strategy it responds with. *)
Definition on_fetch (cfg : Config) (request : Request) : option Strategy :=
  if negb (String.eqb (method request) "GET") then None
  else Some (strategy_of (classify cfg request)).

(** ** The host: cache storage, network, event trace *)

(** [CacheStorage]: the named generations in creation order, each a map from
    request key (the absolute URL of a GET request) to the stored response.
    The order matters: [caches.match] and [caches.keys] follow it. *)
Definition CacheStorage : Type := list (string * gmap string Response).

(** How a [fetch] promise settles, and after how many milliseconds. *)
Inductive NetOutcome :=
  | Fulfils (at_ms : N) (r : Response)
  | Rejects (at_ms : N).

Record Host := {
  origin : string;                    (* the worker's origin, without a final slash *)
  network : string -> NetOutcome
}.

(** A path such as ['/index.html'] handed to the cache API is resolved
    against the worker's location. *)
Definition resolve (h : Host) (path : string) : string :=
  origin h +:+ path.

Inductive Reply :=
  | VersionReply (version : string)   (* [{ version: ... }] *)
  | SuccessReply (success : bool).    (* [{ success: ... }] *)

(** What a handler does to the outside, in the order it does it. *)
Inductive Event :=
  | EvFetch (u : string)                     (* [fetch(request)] *)
  | EvMatch (key : string)                   (* [caches.match(key)] *)
  | EvOpen (name : string)                   (* [caches.open(name)] *)
  | EvPut (name key : string)                (* [cache.put(key, response)] *)
  | EvKeys                                   (* [caches.keys()] *)
  | EvDelete (name : string)                 (* [caches.delete(name)] *)
  | EvSkipWaiting                            (* [self.skipWaiting()] *)
  | EvClaim                                  (* [self.clients.claim()] *)
  | EvPostMessage (reply : Reply).           (* [event.ports[0].postMessage(...)] *)

Definition is_cache_read (e : Event) : bool :=
  match e with
  | EvMatch _ | EvKeys => true
  | _ => false
  end.

Definition is_cache_write (e : Event) : bool :=
  match e with
  | EvOpen _ | EvPut _ _ | EvDelete _ => true
  | _ => false
  end.

Definition is_network (e : Event) : bool :=
  match e with
  | EvFetch _ => true
  | _ => false
  end.

(** ** A monad for handlers: cache state, event trace, rejections *)

Inductive Error :=
  | TypeError        (* [fetch] rejected, or [cache.addAll] met a response that is not ok *)
  | TimeoutError.    (* [new Error('Timeout')] *)

Inductive Outcome (A : Type) :=
  | Returned (a : A)
  | Thrown (e : Error).
Arguments Returned {A} a.
Arguments Thrown {A} e.

Record Run (A : Type) := {
  outcome : Outcome A;
  store : CacheStorage;
  events : list Event
}.
Arguments outcome {A} _.
Arguments store {A} _.
Arguments events {A} _.

Definition M (A : Type) : Type := CacheStorage -> Run A.

Definition ret {A} (a : A) : M A :=
  fun s => {| outcome := Returned a; store := s; events := [] |}.

Definition throw {A} (e : Error) : M A :=
  fun s => {| outcome := Thrown e; store := s; events := [] |}.

Definition bind {A B} (m : M A) (k : A -> M B) : M B :=
  fun s =>
    let r := m s in
    match outcome r with
    | Returned a =>
        let r' := k a (store r) in
        {| outcome := outcome r'; store := store r'; events := events r ++ events r' |}
    | Thrown e =>
        {| outcome := Thrown e; store := store r; events := events r |}
    end.

(** [try { body } catch (error) { handler }] *)
Definition try_catch {A} (body : M A) (handler : Error -> M A) : M A :=
  fun s =>
    let r := body s in
    match outcome r with
    | Returned a => r
    | Thrown e =>
        let r' := handler e (store r) in
        {| outcome := outcome r'; store := store r'; events := events r ++ events r' |}
    end.

Definition emit (e : Event) : M unit :=
  fun s => {| outcome := Returned tt; store := s; events := [e] |}.

Notation "'let*' x ':=' m 'in' k" := (bind m (fun x => k))
  (at level 10, x name, m at level 100, k at level 200).
Notation "m ';;' k" := (bind m (fun _ => k))
  (at level 100, k at level 200, right associativity).

(** [Promise.all]: every promise of the list runs to its end whatever the
    others do; the result fulfils with all the values when all fulfil and
    rejects with the first rejection otherwise. *)
Fixpoint Promise_all {A} (ps : list (M A)) : M (list A) :=
  match ps with
  | [] => ret []
  | p :: rest =>
      fun s =>
        let r := p s in
        let r' := Promise_all rest (store r) in
        {| outcome :=
             match outcome r, outcome r' with
             | Returned a, Returned l => Returned (a :: l)
             | Thrown e, _ => Thrown e
             | Returned _, Thrown e => Thrown e
             end;
           store := store r';
           events := events r ++ events r' |}
  end.

(** ** The cache API and [fetch] *)

(** The first generation, in creation order, that holds [key]. *)
Fixpoint lookup_all (key : string) (s : CacheStorage) : option Response :=
  match s with
  | [] => None
  | (_, c) :: rest =>
      match c !! key with
      | Some r => Some r
      | None => lookup_all key rest
      end
  end.

(** The generation called [name], when it exists. *)
Fixpoint generation (name : string) (s : CacheStorage) : option (gmap string Response) :=
  match s with
  | [] => None
  | (n, c) :: rest => if String.eqb n name then Some c else generation name rest
  end.

(** [get(generation, key)] of the spec: the entry of [key] in generation [name]. *)
Definition entry (name key : string) (s : CacheStorage) : option Response :=
  match generation name s with
  | Some c => c !! key
  | None => None
  end.

Definition names (s : CacheStorage) : list string := map fst s.

Definition has_generation (name : string) (s : CacheStorage) : bool :=
  existsb (String.eqb name) (names s).

(** Open-or-create: a new generation is empty and comes last. *)
Definition open_generation (name : string) (s : CacheStorage) : CacheStorage :=
  if has_generation name s then s else s ++ [(name, ∅)].

Fixpoint put_entry (name key : string) (r : Response) (s : CacheStorage) : CacheStorage :=
  match s with
  | [] => []
  | (n, c) :: rest =>
      if String.eqb n name then (n, <[key := r]> c) :: rest
      else (n, c) :: put_entry name key r rest
  end.

Definition delete_generation (name : string) (s : CacheStorage) : CacheStorage :=
  List.filter (fun g => negb (String.eqb (fst g) name)) s.

(** [fetch(request)] awaited: the response, or a rejection. *)
Definition fetch (h : Host) (u : string) : M Response :=
  fun s =>
    {| outcome := match network h u with
                  | Fulfils _ r => Returned r
                  | Rejects _ => Thrown TypeError
                  end;
       store := s;
       events := [EvFetch u] |}.

(** [caches.match(request)]: looks in every generation, in creation order. *)
Definition caches_match (key : string) : M (option Response) :=
  fun s => {| outcome := Returned (lookup_all key s); store := s; events := [EvMatch key] |}.

(** [caches.open(name)]; the cache object is stood for by its name. *)
Definition caches_open (name : string) : M string :=
  fun s => {| outcome := Returned name; store := open_generation name s; events := [EvOpen name] |}.

(** [cache.put(request, response.clone())]; the clone has the content of the
    response. *)
Definition cache_put (cache key : string) (r : Response) : M unit :=
  fun s => {| outcome := Returned tt; store := put_entry cache key r s; events := [EvPut cache key] |}.

Definition caches_keys : M (list string) :=
  fun s => {| outcome := Returned (names s); store := s; events := [EvKeys] |}.

Definition caches_delete (name : string) : M bool :=
  fun s => {| outcome := Returned (has_generation name s);
              store := delete_generation name s;
              events := [EvDelete name] |}.

(** The responses of a batch of fetches when every one fulfils with an ok
    response, [None] otherwise. *)
Fixpoint fetch_all_ok (h : Host) (keys : list string) : option (list (string * Response)) :=
  match keys with
  | [] => Some []
  | k :: rest =>
      match network h k with
      | Fulfils _ r =>
          if ok r then
            match fetch_all_ok h rest with
            | Some l => Some ((k, r) :: l)
            | None => None
            end
          else None
      | Rejects _ => None
      end
  end.

Definition put_entries (cache : string) (l : list (string * Response)) (s : CacheStorage)
  : CacheStorage :=
  fold_left (fun acc kr => put_entry cache (fst kr) (snd kr) acc) l s.

(** [cache.addAll(paths)]: fetches every path; stores all the responses when
    every fetch fulfils with an ok response, and otherwise rejects and stores
    none. *)
Definition cache_addAll (h : Host) (cache : string) (paths : list string) : M unit :=
  fun s =>
    let keys := map (resolve h) paths in
    match fetch_all_ok h keys with
    | Some l =>
        {| outcome := Returned tt;
           store := put_entries cache l s;
           events := map EvFetch keys ++ map (EvPut cache) keys |}
    | None =>
        {| outcome := Thrown TypeError;
           store := s;
           events := map EvFetch keys |}
    end.

Definition skipWaiting : M unit := emit EvSkipWaiting.
Definition clients_claim : M unit := emit EvClaim.
Definition postMessage (reply : Reply) : M unit := emit (EvPostMessage reply).

(** ** The strategies (lines 120-191) *)

Definition unavailable_resource : Response :=
  {| status := 503; headers := []; body := "Recurso no disponible offline" |}.

Definition unavailable_content : Response :=
  {| status := 503;
     headers := [("Content-Type", "text/plain; charset=utf-8")];
     body := "Contenido no disponible offline" |}.

Definition unavailable_service : Response :=
  {| status := 503; headers := []; body := "Servicio no disponible" |}.

(** [cache.put] is called without [await] (lines 134 and 152): the store of
    a run of [cacheFirst] or [networkFirst] is the store once that write has
    settled. [networkFirst_resolving] below gives the store at the moment the
    returned promise resolves. *)
Definition cacheFirst (h : Host) (cfg : Config) (request : Request) : M Response :=
  try_catch
    (let* cachedResponse := caches_match (url request) in
     match cachedResponse with
     | Some r => ret r
     | None =>
         let* networkResponse := fetch h (url request) in
         (if ok networkResponse then
            let* cache := caches_open (STATIC_CACHE cfg) in
            cache_put cache (url request) networkResponse
          else ret tt);;
         ret networkResponse
     end)
    (fun error => ret unavailable_resource).

Definition networkFirst (h : Host) (cfg : Config) (request : Request) : M Response :=
  try_catch
    (let* networkResponse := fetch h (url request) in
     (if ok networkResponse then
        let* cache := caches_open (DYNAMIC_CACHE cfg) in
        cache_put cache (url request) networkResponse
      else ret tt);;
     ret networkResponse)
    (fun error =>
       let* cachedResponse := caches_match (url request) in
       match cachedResponse with
       | Some r => ret r
       | None =>
           if opt_includes (accept request) "text/html" then
             let* offlinePage := caches_match (resolve h "/") in
             match offlinePage with
             | Some page => ret page
             | None => ret unavailable_content
             end
           else ret unavailable_content
       end).



(** [Promise.race([fetch(request), timeoutPromise])]: the fetch is started and
    the result is that of whichever settles first; a fetch that has not
    settled before [timeout] milliseconds loses to the timer. *)
Definition race_fetch (h : Host) (u : string) (timeout : N) : M Response :=
  fun s =>
    {| outcome := match network h u with
                  | Fulfils t r => if (t <? timeout)%N then Returned r else Thrown TimeoutError
                  | Rejects t => if (t <? timeout)%N then Thrown TypeError else Thrown TimeoutError
                  end;
       store := s;
       events := [EvFetch u] |}.

Definition networkWithTimeout (h : Host) (request : Request) (timeout : N) : M Response :=
  try_catch
    (race_fetch h (url request) timeout)
    (fun error => ret unavailable_service).

Definition respond (h : Host) (cfg : Config) (st : Strategy) (request : Request) : M Response :=
  match st with
  | CacheFirst => cacheFirst h cfg request
  | NetworkFirst => networkFirst h cfg request
  | NetworkWithTimeout timeout => networkWithTimeout h request timeout
  end.

(** A fetch event as the page sees it: the response of the strategy the
    handler responds with, or, when the handler does not respond, the
    browser's own fetch of the request. *)
Definition fetch_event (h : Host) (cfg : Config) (request : Request) : M Response :=
  match on_fetch cfg request with
  | Some st => respond h cfg st request
  | None => fetch h (url request)
  end.

(** ** The lifecycle handlers (lines 40-82) *)

Definition static_populate (h : Host) (cfg : Config) : M unit :=
  let* cache := caches_open (STATIC_CACHE cfg) in
  cache_addAll h cache (STATIC_ASSETS cfg).

Definition dynamic_priming (h : Host) (cfg : Config) : M unit :=
  let* cache := caches_open (DYNAMIC_CACHE cfg) in
  cache_addAll h cache (firstn 3 (PRODUCT_IMAGES cfg) ++ firstn 2 (BRANCH_IMAGES cfg)).

(** The promise handed to [event.waitUntil] decides whether the installation
    succeeds. [self.skipWaiting()] is called while that promise is pending,
    so it comes first in the trace. *)
Definition install (h : Host) (cfg : Config) : M unit :=
  skipWaiting;;
  Promise_all [static_populate h cfg; dynamic_priming h cfg];;
  ret tt.

Definition evict (cfg : Config) (cacheName : string) : M unit :=
  if negb (String.eqb cacheName (STATIC_CACHE cfg)) &&
     negb (String.eqb cacheName (DYNAMIC_CACHE cfg))
  then caches_delete cacheName;; ret tt
  else ret tt.

(** [caches.keys()] is called first (line 68); [self.clients.claim()]
    (line 81) is called while its promise is pending, before the callback
    that deletes. *)
Definition activate (cfg : Config) : M unit :=
  let* cacheNames := caches_keys in
  clients_claim;;
  Promise_all (map (evict cfg) cacheNames);;
  ret tt.

(** ** The message handler (lines 222-240) *)

(** [event.data && event.data.type === t], with [data] the [type] field of a
    truthy [event.data]. *)
Definition has_type (data : option string) (t : string) : bool :=
  match data with
  | Some ty => String.eqb ty t
  | None => false
  end.

Definition on_message (cfg : Config) (data : option string) : M unit :=
  (if has_type data "SKIP_WAITING" then skipWaiting else ret tt);;
  (if has_type data "GET_VERSION" then postMessage (VersionReply (CACHE_NAME cfg)) else ret tt);;
  (if has_type data "CLEAR_CACHE" then
     let* cacheNames := caches_keys in
     Promise_all (map caches_delete cacheNames);;
     postMessage (SuccessReply true)
   else ret tt).

(** The replies posted during a run. *)
Definition replies (evs : list Event) : list Reply :=
  flat_map (fun e => match e with EvPostMessage r => [r] | _ => [] end) evs.

(** ** What the claims are stated with *)

(** [piece] occurs in [s]: the meaning of [s.includes(piece)]. *)
Definition occurs_in (piece s : string) : Prop :=
  exists before after, s = before +:+ piece +:+ after.

(** A serialised absolute URL with an authority, as every request a worker
    intercepts has. *)
Definition absolute_url (u : string) : Prop :=
  exists scheme rest, u = scheme +:+ "://" +:+ rest.

(** The name of the generation in which [caches.match(key)] finds its answer. *)
Fixpoint holder (key : string) (s : CacheStorage) : option string :=
  match s with
  | [] => None
  | (n, c) :: rest =>
      match c !! key with
      | Some _ => Some n
      | None => holder key rest
      end
  end.

(** The generations [activate] keeps. *)
Definition current (cfg : Config) (name : string) : bool :=
  String.eqb name (STATIC_CACHE cfg) || String.eqb name (DYNAMIC_CACHE cfg).

(** A deployment for the examples: the site's origin, a network that answers
    every request after 20 ms with status 200 and the URL as body, except
    the listed URLs, which it rejects. *)
Definition site : string := "https://josealarconortega.github.io".

Definition page_of (u : string) : Response :=
  {| status := 200; headers := [("Content-Type", "text/plain")]; body := u |}.

Definition host_failing (down : list string) : Host :=
  {| origin := site;
     network := fun u => if existsb (String.eqb u) down then Rejects 20 else Fulfils 20 (page_of u) |}.

Definition online : Host := host_failing [].

Definition get (u : string) : Request :=
  {| method := "GET"; url := u; accept := Some "*/*" |}.

(** A product image that is in none of the lists. *)
Definition x_png : Request := get (site +:+ "/productos/x.png").

(** A product image of the priming subset, and the caches as a successful
    installation on an empty storage leaves them. *)
Definition magnesio : Request := get (site +:+ "/productos/citrato_magnesio.png").

Definition installed : CacheStorage := store (install online sw []).

(** The constants of [sw.js] with an empty static-asset list, to look at the
    extension tests of [isStaticAsset] on their own. *)
Definition sw_extensions_only : Config :=
  {| CACHE_NAME := CACHE_NAME sw;
     STATIC_CACHE := STATIC_CACHE sw;
     DYNAMIC_CACHE := DYNAMIC_CACHE sw;
     STATIC_ASSETS := [];
     PRODUCT_IMAGES := PRODUCT_IMAGES sw;
     BRANCH_IMAGES := BRANCH_IMAGES sw |}.

(** Scenario B of the spec: the stamps [v1-static] and [v1-dynamic]. *)
Definition scenario_v1 : Config :=
  {| CACHE_NAME := CACHE_NAME sw;
     STATIC_CACHE := "v1-static";
     DYNAMIC_CACHE := "v1-dynamic";
     STATIC_ASSETS := STATIC_ASSETS sw;
     PRODUCT_IMAGES := PRODUCT_IMAGES sw;
     BRANCH_IMAGES := BRANCH_IMAGES sw |}.

Definition scenario_b : CacheStorage :=
  [("v1-static", ∅); ("v1-dynamic", ∅); ("v0-static", ∅)].

(** A request that is not a GET. *)
Definition post_form : Request :=
  {| method := "POST"; url := site +:+ "/contacto"; accept := Some "text/html" |}.

(** ** What the further properties are stated with *)

(** Every response held by a generation is ok (status 200-299). *)
Definition stored_ok (s : CacheStorage) : Prop :=
  Forall (fun g => map_Forall (fun _ r => ok r = true) (snd g)) s.

(** The number of [fetch] calls in a trace. *)
Definition fetches (evs : list Event) : nat :=
  length (List.filter is_network evs).

(** A network that rejects every request, and one that answers every request
    with status 404. *)
Definition offline : Host :=
  {| origin := site; network := fun _ => Rejects 20 |}.

Definition not_found : Response :=
  {| status := 404; headers := []; body := "Not Found" |}.

Definition host_404 : Host :=
  {| origin := site; network := fun _ => Fulfils 20 not_found |}.

(** A navigation to a page that no generation holds. *)
Definition ofertas : Request :=
  {| method := "GET"; url := site +:+ "/ofertas"; accept := Some "text/html,*/*" |}.

(** The same site after its content has changed: every request is answered
    with status 200 and a new body. *)
Definition updated : Host :=
  {| origin := site;
     network := fun u => Fulfils 20 {| status := 200; headers := []; body := "new " +:+ u |} |}.

(** The response a fetch of [key] fulfils with, when it does. *)
Definition fetched (h : Host) (key : string) : option Response :=
  match network h key with
  | Fulfils _ r => Some r
  | Rejects _ => None
  end.

(** The paths [install] primes the dynamic generation with (line 53). *)
Definition priming_subset (cfg : Config) : list string :=
  firstn 3 (PRODUCT_IMAGES cfg) ++ firstn 2 (BRANCH_IMAGES cfg).

(** A network on which [/manifest.json] alone answers 404. *)
Definition manifest_missing : Host :=
  {| origin := site;
     network := fun u => if String.eqb u (site +:+ "/manifest.json")
                         then Fulfils 20 not_found else Fulfils 20 (page_of u) |}.

(** The constants of [sw.js] with the entry ['/'] taken out of the
    static-asset list, to see what that entry alone decides. *)
Definition sw_without_root : Config :=
  {| CACHE_NAME := CACHE_NAME sw;
     STATIC_CACHE := STATIC_CACHE sw;
     DYNAMIC_CACHE := DYNAMIC_CACHE sw;
     STATIC_ASSETS := List.filter (fun asset => negb (String.eqb asset "/")) (STATIC_ASSETS sw);
     PRODUCT_IMAGES := PRODUCT_IMAGES sw;
     BRANCH_IMAGES := BRANCH_IMAGES sw |}.


(** The runs of successive fetch events for the same request, one per state
    of the network in [hs], each on the caches the one before left, nothing
    else touching the caches in between. *)
Fixpoint later_events (cfg : Config) (request : Request) (hs : list Host) (s : CacheStorage)
  : list (Run Response) :=
  match hs with
  | [] => []
  | h :: rest =>
      fetch_event h cfg request s ::
      later_events cfg request rest (store (fetch_event h cfg request s))
  end.

(** * Properties *)

(** ** Substrings *)

Lemma prefix_app (p s : string) :
  String.prefix p s = true <-> exists rest, s = p +:+ rest.
Proof.
  revert p. induction s as [|b s IH]; intros [|a p]; simpl.
  - split; [intros _; exists ""; reflexivity | reflexivity].
  - split; [discriminate | intros [rest H]; discriminate].
  - split; [intros _; exists (String b s); reflexivity | reflexivity].
  - destruct (Ascii.ascii_dec a b) as [->|Hne].
    + rewrite IH. split; intros [rest H]; exists rest; [subst; reflexivity | now inversion H].
    + split; [discriminate | intros [rest H]; inversion H; congruence].
Qed.

Lemma includes_unfold (s piece : string) :
  includes s piece =
  if String.prefix piece s then true
  else match s with
       | EmptyString => false
       | String _ rest => includes rest piece
       end.
Proof. destruct s; reflexivity. Qed.

Lemma includes_occurs (s piece : string) :
  includes s piece = true <-> occurs_in piece s.
Proof.
  induction s as [|a s IH]; rewrite includes_unfold.
  - destruct (String.prefix piece "") eqn:E.
    + split; [intros _ | reflexivity].
      apply prefix_app in E as [rest E]. exists "", rest. exact E.
    + split; [discriminate |].
      intros [[|b before] [after H]]; simpl in H.
      * assert (String.prefix piece "" = true) by (apply prefix_app; eauto). congruence.
      * discriminate.
  - destruct (String.prefix piece (String a s)) eqn:E.
    + split; [intros _ | reflexivity].
      apply prefix_app in E as [rest E]. exists "", rest. exact E.
    + rewrite IH. split.
      * intros (before & after & ->). exists (String a before), after. reflexivity.
      * intros ([|b before] & after & H); simpl in H.
        -- assert (String.prefix piece (String a s) = true) by (apply prefix_app; eauto).
           congruence.
        -- inversion H; subst. exists before, after. reflexivity.
Qed.

Lemma occurs_char (c : ascii) (s : string) :
  In c (list_ascii_of_string s) -> occurs_in (String c "") s.
Proof.
  induction s as [|a s IH]; simpl; [tauto |].
  intros [->|H].
  - exists "", s. reflexivity.
  - destruct (IH H) as (before & after & ->). exists (String a before), after. reflexivity.
Qed.

Lemma absolute_url_has_slash (u : string) :
  absolute_url u -> In "/"%char (list_ascii_of_string u).
Proof.
  intros (scheme & rest & ->).
  induction scheme as [|a scheme IH]; simpl; auto.
Qed.

Lemma existsb_includes (u : string) (l : list string) :
  existsb (fun asset => includes u asset) l = true <->
  exists asset, In asset l /\ occurs_in asset u.
Proof.
  rewrite existsb_exists. split; intros (a & Hin & H); exists a; split; auto;
    now apply includes_occurs.
Qed.

(** ** The classifier *)

Lemma isStaticAsset_occurs (cfg : Config) (u : string) :
  isStaticAsset cfg u = true <->
  (exists asset, In asset (STATIC_ASSETS cfg) /\ occurs_in asset u) \/
  occurs_in ".css" u \/ occurs_in ".js" u \/ occurs_in ".woff" u \/ occurs_in ".woff2" u.
Proof.
  unfold isStaticAsset.
  rewrite !orb_true_iff, existsb_includes, !includes_occurs. tauto.
Qed.

(** The dispatch as the code has it: a GET request takes the [StaticAsset] branch
    exactly when an entry of the static-asset list, or one of [.css], [.js],
    [.woff], [.woff2], occurs somewhere in its URL; the five guards are tried
    in the order StaticAsset, Image, Document, ExternalAPI, Other, the first
    that holds decides, and the handler responds with the strategy of that
    branch. *)
Theorem classify_first_match (cfg : Config) (request : Request)
    (Hget : method request = "GET") :
  (classify cfg request = StaticAsset <->
     (exists asset, In asset (STATIC_ASSETS cfg) /\ occurs_in asset (url request)) \/
     occurs_in ".css" (url request) \/ occurs_in ".js" (url request) \/
     occurs_in ".woff" (url request) \/ occurs_in ".woff2" (url request)) /\
  (classify cfg request = Image <->
     isStaticAsset cfg (url request) = false /\ isImage (url request) = true) /\
  (classify cfg request = Document <->
     isStaticAsset cfg (url request) = false /\ isImage (url request) = false /\
     opt_includes (accept request) "text/html" = true) /\
  (classify cfg request = ExternalAPI <->
     isStaticAsset cfg (url request) = false /\ isImage (url request) = false /\
     opt_includes (accept request) "text/html" = false /\
     isExternalAPI (url request) = true) /\
  (classify cfg request = Other <->
     isStaticAsset cfg (url request) = false /\ isImage (url request) = false /\
     opt_includes (accept request) "text/html" = false /\
     isExternalAPI (url request) = false) /\
  on_fetch cfg request = Some (strategy_of (classify cfg request)).
Proof.
  rewrite <- isStaticAsset_occurs.
  unfold on_fetch, classify. rewrite Hget. simpl.
  destruct (isStaticAsset cfg (url request)), (isImage (url request)),
    (opt_includes (accept request) "text/html"), (isExternalAPI (url request));
    repeat split; intros; try discriminate; try tauto;
    repeat match goal with H : _ /\ _ |- _ => destruct H end; discriminate.
Qed.

(** The extension tests are substring tests too: [.js] occurs in a URL that
    ends in [.json], which makes it a static asset whatever the list holds. *)
Example js_test_is_not_a_suffix_test :
  includes (site +:+ "/datos/precios.json") ".js" = true /\
  endsWith (site +:+ "/datos/precios.json") ".js" = false /\
  classify sw_extensions_only (get (site +:+ "/datos/precios.json")) = StaticAsset.
Proof. repeat split. Qed.

(** The theorem at the request for [/productos/x.png]. *)
Lemma classify_first_match_witness :
  method x_png = "GET" /\
  on_fetch sw x_png = Some (strategy_of (classify sw x_png)).
Proof.
  split; [reflexivity |].
  apply (classify_first_match sw x_png). reflexivity.
Defined.

(** The GET request for [/productos/x.png]
    matches no entry of the list exactly and ends in none of the four
    extensions, yet it takes the [StaticAsset] branch, not the [Image] one,
    and is answered by [CacheFirst]. *)
Lemma productos_png_is_static :
  method x_png = "GET" /\
  url x_png = resolve online "/productos/x.png" /\
  ~ In (url x_png) (STATIC_ASSETS sw) /\
  ~ In "/productos/x.png" (STATIC_ASSETS sw) /\
  existsb (endsWith (url x_png)) [".css"; ".js"; ".woff"; ".woff2"] = false /\
  classify sw x_png = StaticAsset /\
  classify sw x_png <> Image /\
  on_fetch sw x_png = Some CacheFirst.
Proof.
  repeat split; try reflexivity; try discriminate;
    intros H; simpl in H; intuition discriminate.
Qed.

(** C1, at the request of the spec's scenario C: the GET request for
    [/productos/x.png] satisfies the handler's own image test, which the
    handler means to answer with [networkFirst] (lines 98-102), but the test
    for static assets comes first and holds through the list entry ['/']
    alone, so the request is classified [StaticAsset] and answered by
    [cacheFirst]; with that entry out of the list the same request is
    classified [Image] and answered by [networkFirst]. With the network
    unreachable and nothing cached the answer is the 503 of [cacheFirst],
    after a cache lookup and one fetch, not the 503 of [networkFirst]. *)
Theorem productos_png_misses_image_branch :
  method x_png = "GET" /\
  isImage (url x_png) = true /\
  classify sw x_png = StaticAsset /\
  on_fetch sw x_png = Some CacheFirst /\
  List.filter (includes (url x_png)) (STATIC_ASSETS sw) = ["/"] /\
  classify sw_without_root x_png = Image /\
  on_fetch sw_without_root x_png = Some NetworkFirst /\
  fetch_event offline sw x_png [] =
    {| outcome := Returned unavailable_resource; store := [];
       events := [EvMatch (url x_png); EvFetch (url x_png)] |} /\
  outcome (networkFirst offline sw x_png []) = Returned unavailable_content /\
  unavailable_resource <> unavailable_content.
Proof.
  repeat split; try (vm_compute; reflexivity). discriminate.
Qed.

(** C2: with ['/'] in the static-asset list, [isStaticAsset] holds of every
    URL in which a slash occurs; every GET request with such a URL, so every
    one with an absolute URL, takes the [StaticAsset] branch and is answered
    by [cacheFirst], never by [networkFirst] or [networkWithTimeout]. *)
Theorem slash_entry_captures_every_url (cfg : Config) (u : string)
    (Hentry : In "/" (STATIC_ASSETS cfg))
    (Hslash : In "/"%char (list_ascii_of_string u)) :
  isStaticAsset cfg u = true /\
  forall request : Request,
    url request = u -> method request = "GET" ->
    classify cfg request = StaticAsset /\
    on_fetch cfg request = Some CacheFirst /\
    on_fetch cfg request <> Some NetworkFirst /\
    (forall timeout, on_fetch cfg request <> Some (NetworkWithTimeout timeout)) /\
    (forall h, fetch_event h cfg request = cacheFirst h cfg request).
Proof.
  assert (Hs : isStaticAsset cfg u = true).
  { apply isStaticAsset_occurs. left. exists "/". split; [exact Hentry |].
    now apply occurs_char. }
  split; [exact Hs |].
  intros request Hu Hget.
  assert (Hc : classify cfg request = StaticAsset).
  { unfold classify. now rewrite Hu, Hs. }
  assert (Hf : on_fetch cfg request = Some CacheFirst).
  { unfold on_fetch. now rewrite Hget, Hc. }
  split; [exact Hc |]. split; [exact Hf |]. rewrite Hf.
  split; [discriminate |]. split; [discriminate |].
  intros h. unfold fetch_event. now rewrite Hf.
Qed.

(** The theorem at the constants of [sw.js] and an absolute URL. *)
Lemma slash_entry_captures_every_url_witness :
  In "/" (STATIC_ASSETS sw) /\
  absolute_url (url x_png) /\
  isStaticAsset sw (url x_png) = true /\
  on_fetch sw x_png = Some CacheFirst.
Proof.
  assert (Habs : absolute_url (url x_png)).
  { exists "https", "josealarconortega.github.io/productos/x.png". reflexivity. }
  assert (Hentry : In "/" (STATIC_ASSETS sw)) by (simpl; auto).
  destruct (slash_entry_captures_every_url sw (url x_png) Hentry
              (absolute_url_has_slash _ Habs)) as [Hs Hall].
  split; [exact Hentry |]. split; [exact Habs |]. split; [exact Hs |].
  apply (Hall x_png); reflexivity.
Defined.

(** ** The cache store *)

Lemma open_generation_cons (name n : string) (c : gmap string Response) (s : CacheStorage) :
  open_generation name ((n, c) :: s) =
  if String.eqb name n then (n, c) :: s else (n, c) :: open_generation name s.
Proof.
  unfold open_generation, has_generation. simpl.
  destruct (String.eqb name n); simpl; [reflexivity |].
  now destruct (existsb (String.eqb name) (names s)).
Qed.

(** Writing [key] into generation [name] right after opening it: what every
    generation holds afterwards. *)
Lemma generation_put_open (name key : string) (r : Response) (s : CacheStorage) (name' : string) :
  generation name' (put_entry name key r (open_generation name s)) =
  if String.eqb name' name
  then Some (<[key := r]> (default ∅ (generation name s)))
  else generation name' s.
Proof.
  induction s as [|[n c] s IH].
  - cbn. rewrite String.eqb_refl. cbn. rewrite (String.eqb_sym name name').
    reflexivity.
  - rewrite open_generation_cons. rewrite (String.eqb_sym name n).
    destruct (String.eqb_spec n name) as [->|Hn]; cbn.
    + rewrite String.eqb_refl. cbn. rewrite (String.eqb_sym name name').
      now destruct (String.eqb name' name).
    + destruct (String.eqb_spec n name) as [?|_]; [contradiction |]. cbn.
      rewrite IH.
      destruct (String.eqb_spec n name') as [<-|Hn'].
      * destruct (String.eqb_spec n name); [contradiction | reflexivity].
      * reflexivity.
Qed.

Lemma entry_put_open_same (name key : string) (r : Response) (s : CacheStorage) :
  entry name key (put_entry name key r (open_generation name s)) = Some r.
Proof.
  unfold entry. rewrite generation_put_open, String.eqb_refl.
  apply lookup_insert_eq.
Qed.

Lemma entry_put_open_other (name key : string) (r : Response) (s : CacheStorage)
    (name' key' : string) :
  name' <> name \/ key' <> key ->
  entry name' key' (put_entry name key r (open_generation name s)) = entry name' key' s.
Proof.
  intros H. unfold entry. rewrite generation_put_open.
  destruct (String.eqb_spec name' name) as [->|Hn]; [| reflexivity].
  destruct H as [H|H]; [contradiction |].
  rewrite lookup_insert_ne by congruence.
  destruct (generation name s); [reflexivity | apply lookup_empty].
Qed.


(** After such a write [caches.match] answers with the new response, unless a
    generation created before [name] already answers for the key. *)
Lemma lookup_all_put_open (name key : string) (r : Response) (s : CacheStorage) :
  holder key s = None \/ holder key s = Some name ->
  lookup_all key (put_entry name key r (open_generation name s)) = Some r.
Proof.
  induction s as [|[n c] s IH]; intros H.
  - cbn. rewrite String.eqb_refl. cbn. now rewrite lookup_insert_eq.
  - rewrite open_generation_cons, (String.eqb_sym name n).
    destruct (String.eqb_spec n name) as [->|Hn]; cbn.
    + rewrite String.eqb_refl. cbn. now rewrite lookup_insert_eq.
    + destruct (String.eqb_spec n name) as [?|_]; [contradiction |]. cbn.
      cbn in H. destruct (c !! key) eqn:E.
      * destruct H as [H|H]; [discriminate | congruence].
      * now apply IH.
Qed.

Lemma lookup_all_holder (key : string) (s : CacheStorage) :
  lookup_all key s = None <-> holder key s = None.
Proof.
  induction s as [|[n c] s IH]; cbn; [tauto |].
  destruct (c !! key); [split; discriminate | exact IH].
Qed.

(** ** The strategies *)

Lemma cacheFirst_hit (h : Host) (cfg : Config) (request : Request) (s : CacheStorage)
    (cached : Response) :
  lookup_all (url request) s = Some cached ->
  cacheFirst h cfg request s =
  {| outcome := Returned cached; store := s; events := [EvMatch (url request)] |}.
Proof.
  intros H. unfold cacheFirst, try_catch, bind, caches_match. cbn. rewrite H. reflexivity.
Qed.

Lemma cacheFirst_miss (h : Host) (cfg : Config) (request : Request) (s : CacheStorage) :
  lookup_all (url request) s = None ->
  cacheFirst h cfg request s =
  match network h (url request) with
  | Fulfils _ resp =>
      if ok resp then
        {| outcome := Returned resp;
           store := put_entry (STATIC_CACHE cfg) (url request) resp
                      (open_generation (STATIC_CACHE cfg) s);
           events := [EvMatch (url request); EvFetch (url request);
                      EvOpen (STATIC_CACHE cfg); EvPut (STATIC_CACHE cfg) (url request)] |}
      else
        {| outcome := Returned resp; store := s;
           events := [EvMatch (url request); EvFetch (url request)] |}
  | Rejects _ =>
      {| outcome := Returned unavailable_resource; store := s;
         events := [EvMatch (url request); EvFetch (url request)] |}
  end.
Proof.
  intros H. unfold cacheFirst, try_catch, bind, caches_match, fetch. cbn. rewrite H. cbn.
  destruct (network h (url request)) as [t resp|t]; cbn; [| reflexivity].
  destruct (ok resp); reflexivity.
Qed.

Lemma networkFirst_fetched (h : Host) (cfg : Config) (request : Request) (s : CacheStorage)
    (t : N) (resp : Response) :
  network h (url request) = Fulfils t resp ->
  networkFirst h cfg request s =
  if ok resp then
    {| outcome := Returned resp;
       store := put_entry (DYNAMIC_CACHE cfg) (url request) resp
                  (open_generation (DYNAMIC_CACHE cfg) s);
       events := [EvFetch (url request); EvOpen (DYNAMIC_CACHE cfg);
                  EvPut (DYNAMIC_CACHE cfg) (url request)] |}
  else
    {| outcome := Returned resp; store := s; events := [EvFetch (url request)] |}.
Proof.
  intros H. unfold networkFirst, try_catch, bind, fetch. cbn. rewrite H. cbn.
  destruct (ok resp); reflexivity.
Qed.

Lemma networkFirst_offline_store (h : Host) (cfg : Config) (request : Request)
    (s : CacheStorage) (t : N) :
  network h (url request) = Rejects t ->
  store (networkFirst h cfg request s) = s.
Proof.
  intros H. unfold networkFirst, try_catch, bind, fetch, caches_match. cbn. rewrite H. cbn.
  destruct (lookup_all (url request) s); cbn; [reflexivity |].
  destruct (opt_includes (accept request) "text/html"); cbn; [| reflexivity].
  destruct (lookup_all (resolve h "/") s); reflexivity.
Qed.

(** C3, as the code has it: [cacheFirst] looks the request up with
    [caches.match], that is in every generation; an entry found in any of them
    is returned with no network call and no write. Without one it fetches: a
    response that is ok is stored in the static generation under the
    request's key, and nowhere else, and returned; a response that is not ok
    is returned and not stored; a rejected fetch gives the 503 response
    ['Recurso no disponible offline'] and stores nothing. *)
Theorem cacheFirst_behaviour (h : Host) (cfg : Config) (request : Request) (s : CacheStorage) :
  let r := cacheFirst h cfg request s in
  match lookup_all (url request) s with
  | Some cached =>
      outcome r = Returned cached /\ store r = s /\
      existsb is_network (events r) = false
  | None =>
      match network h (url request) with
      | Fulfils _ resp =>
          outcome r = Returned resp /\
          if ok resp then
            entry (STATIC_CACHE cfg) (url request) (store r) = Some resp /\
            forall name key,
              name <> STATIC_CACHE cfg \/ key <> url request ->
              entry name key (store r) = entry name key s
          else store r = s
      | Rejects _ =>
          outcome r = Returned unavailable_resource /\
          status unavailable_resource = 503%N /\
          store r = s
      end
  end.
Proof.
  cbv zeta. destruct (lookup_all (url request) s) as [cached|] eqn:E.
  - rewrite (cacheFirst_hit _ _ _ _ _ E). cbn. auto.
  - rewrite (cacheFirst_miss _ _ _ _ E).
    destruct (network h (url request)) as [t resp|t]; [| cbn; auto].
    destruct (ok resp); cbn; [| auto].
    split; [reflexivity |]. split.
    + apply entry_put_open_same.
    + intros name key H. now apply entry_put_open_other.
Qed.

(** C3 as the spec words it fails: after the installation the image
    [citrato_magnesio.png] is in the dynamic generation and not in the
    static one; with the network down for it, a lookup in the static
    generation only would end in the 503 response, but [cacheFirst] returns
    the copy of the dynamic generation, without a network call. *)
Lemma cacheFirst_reads_dynamic_generation :
  entry (STATIC_CACHE sw) (url magnesio) installed = None /\
  entry (DYNAMIC_CACHE sw) (url magnesio) installed = Some (page_of (url magnesio)) /\
  network (host_failing [url magnesio]) (url magnesio) = Rejects 20 /\
  outcome (cacheFirst (host_failing [url magnesio]) sw magnesio installed)
    = Returned (page_of (url magnesio)) /\
  status (page_of (url magnesio)) <> 503%N /\
  events (cacheFirst (host_failing [url magnesio]) sw magnesio installed)
    = [EvMatch (url magnesio)].
Proof.
  repeat split; try (vm_compute; reflexivity). discriminate.
Qed.





(** C7: [networkWithTimeout] returns the response of a fetch that fulfils
    before the timeout and the 503 response ['Servicio no disponible'] when
    the fetch is rejected or has not settled in time; whatever happens it
    leaves every generation as it was, does no cache lookup and no cache
    write, and its result does not depend on what the caches hold. The fetch
    handler calls it with a timeout of 5000 ms. *)
Theorem networkWithTimeout_never_caches (h : Host) (request : Request) (timeout : N)
    (s : CacheStorage) :
  let r := networkWithTimeout h request timeout s in
  outcome r =
    match network h (url request) with
    | Fulfils t resp => if (t <? timeout)%N then Returned resp else Returned unavailable_service
    | Rejects _ => Returned unavailable_service
    end /\
  status unavailable_service = 503%N /\
  store r = s /\
  existsb is_cache_read (events r) = false /\
  existsb is_cache_write (events r) = false /\
  (forall s', outcome (networkWithTimeout h request timeout s') = outcome r) /\
  strategy_of ExternalAPI = NetworkWithTimeout 5000.
Proof.
  cbv zeta. unfold networkWithTimeout, try_catch, race_fetch. cbn.
  destruct (network h (url request)) as [t resp|t]; destruct (t <? timeout)%N; cbn; auto 10.
Qed.

(** C8: for a request whose method is not GET the handler does not respond;
    the request goes to the network as it would without the worker, no
    generation is read or written, and the caches are left as they were. *)
Theorem non_get_bypasses_caches (h : Host) (cfg : Config) (request : Request)
    (s : CacheStorage) (Hmethod : method request <> "GET") :
  on_fetch cfg request = None /\
  fetch_event h cfg request s = fetch h (url request) s /\
  store (fetch_event h cfg request s) = s /\
  existsb is_cache_read (events (fetch_event h cfg request s)) = false /\
  existsb is_cache_write (events (fetch_event h cfg request s)) = false /\
  events (fetch_event h cfg request s) = [EvFetch (url request)].
Proof.
  assert (Hf : on_fetch cfg request = None).
  { unfold on_fetch. destruct (String.eqb_spec (method request) "GET"); [contradiction | reflexivity]. }
  unfold fetch_event. rewrite Hf. cbn. auto 10.
Qed.

(** The theorem at a POST request. *)
Lemma non_get_bypasses_caches_witness :
  method post_form <> "GET" /\
  on_fetch sw post_form = None /\
  store (fetch_event online sw post_form installed) = installed.
Proof.
  assert (Hm : method post_form <> "GET") by (simpl; discriminate).
  destruct (non_get_bypasses_caches online sw post_form installed Hm) as (Hf & _ & Hs & _).
  split; [exact Hm |]. split; [exact Hf | exact Hs].
Defined.

(** ** The message handler *)

(** C4, as the code has it: the reply to [GET_VERSION] carries the constant
    [CACHE_NAME], in [sw.js] the string ['vivomas-v1.0.0'], and the handler
    leaves the caches as they were. *)
Theorem get_version_replies_cache_name (cfg : Config) (s : CacheStorage) :
  replies (events (on_message cfg (Some "GET_VERSION") s)) = [VersionReply (CACHE_NAME cfg)] /\
  store (on_message cfg (Some "GET_VERSION") s) = s /\
  CACHE_NAME sw = "vivomas-v1.0.0".
Proof. repeat split. Qed.

(** C4 as the spec words it fails: with the static generation open under its
    name ['vivomas-static-v1'], the version replied is ['vivomas-v1.0.0']. *)
Lemma get_version_is_not_static_name :
  has_generation (STATIC_CACHE sw) installed = true /\
  STATIC_CACHE sw = "vivomas-static-v1" /\
  replies (events (on_message sw (Some "GET_VERSION") installed))
    = [VersionReply "vivomas-v1.0.0"] /\
  replies (events (on_message sw (Some "GET_VERSION") installed))
    <> [VersionReply (STATIC_CACHE sw)].
Proof.
  repeat split; try (vm_compute; reflexivity). vm_compute. discriminate.
Qed.

(** ** Installation *)

Lemma addAll_outcome (h : Host) (cache : string) (paths : list string) (s : CacheStorage) :
  outcome (cache_addAll h cache paths s) =
  match fetch_all_ok h (map (resolve h) paths) with
  | Some _ => Returned tt
  | None => Thrown TypeError
  end.
Proof.
  unfold cache_addAll. now destruct (fetch_all_ok h (map (resolve h) paths)).
Qed.

Lemma static_populate_outcome (h : Host) (cfg : Config) (s : CacheStorage) :
  outcome (static_populate h cfg s) =
  match fetch_all_ok h (map (resolve h) (STATIC_ASSETS cfg)) with
  | Some _ => Returned tt
  | None => Thrown TypeError
  end.
Proof.
  unfold static_populate, bind, caches_open. cbn. apply addAll_outcome.
Qed.

Lemma dynamic_priming_outcome (h : Host) (cfg : Config) (s : CacheStorage) :
  outcome (dynamic_priming h cfg s) =
  match fetch_all_ok h (map (resolve h)
                          (firstn 3 (PRODUCT_IMAGES cfg) ++ firstn 2 (BRANCH_IMAGES cfg))) with
  | Some _ => Returned tt
  | None => Thrown TypeError
  end.
Proof.
  unfold dynamic_priming, bind, caches_open. cbn. apply addAll_outcome.
Qed.

Lemma install_outcome (h : Host) (cfg : Config) (s : CacheStorage) :
  outcome (install h cfg s) =
  match outcome (static_populate h cfg s), outcome (dynamic_priming h cfg s) with
  | Returned _, Returned _ => Returned tt
  | Thrown e, _ => Thrown e
  | Returned _, Thrown e => Thrown e
  end.
Proof.
  unfold install, bind, skipWaiting, emit, ret.
  cbn -[static_populate dynamic_priming].
  rewrite (dynamic_priming_outcome h cfg (store (static_populate h cfg s))).
  rewrite (dynamic_priming_outcome h cfg s).
  destruct (outcome (static_populate h cfg s)) as [[]|e]; cbn.
  - now destruct (fetch_all_ok h _).
  - reflexivity.
Qed.

(** C5, as the code has it: the installation succeeds exactly when both the
    static bulk-populate step and the priming step succeed; a failure of the
    priming step makes it fail. *)
Theorem install_needs_both_steps (h : Host) (cfg : Config) (s : CacheStorage) :
  (outcome (install h cfg s) = Returned tt <->
   outcome (static_populate h cfg s) = Returned tt /\
   outcome (dynamic_priming h cfg s) = Returned tt) /\
  (forall e, outcome (dynamic_priming h cfg s) = Thrown e ->
             exists e', outcome (install h cfg s) = Thrown e').
Proof.
  rewrite install_outcome.
  destruct (outcome (static_populate h cfg s)) as [[]|e1],
           (outcome (dynamic_priming h cfg s)) as [[]|e2]; split;
    try (split; [intros H | intros [H1 H2]]; try discriminate; auto; fail);
    intros e He; try discriminate; eauto.
Qed.

(** C5 as the spec words it fails: with every static asset fetched and one
    image of the priming subset unreachable, the static step succeeds as it
    does with the whole network up, and the installation fails. *)
Lemma install_fails_when_priming_fails :
  outcome (static_populate (host_failing [url magnesio]) sw []) = Returned tt /\
  outcome (static_populate online sw []) = Returned tt /\
  outcome (dynamic_priming (host_failing [url magnesio]) sw []) = Thrown TypeError /\
  outcome (install (host_failing [url magnesio]) sw []) = Thrown TypeError /\
  outcome (install online sw []) = Returned tt.
Proof. repeat split; vm_compute; reflexivity. Qed.

(** ** Activation *)

Lemma filter_filter_pointwise {A} (p q r : A -> bool) (l : list A) :
  (forall x, q x && p x = r x) ->
  List.filter p (List.filter q l) = List.filter r l.
Proof.
  intros H. induction l as [|x l IH]; cbn; [reflexivity |].
  rewrite <- (H x). destruct (q x); cbn; [| exact IH].
  destruct (p x); now rewrite IH.
Qed.

Lemma evict_store (cfg : Config) (n : string) (s : CacheStorage) :
  store (evict cfg n s) = if current cfg n then s else delete_generation n s.
Proof.
  unfold evict, current.
  destruct (String.eqb n (STATIC_CACHE cfg)), (String.eqb n (DYNAMIC_CACHE cfg)); reflexivity.
Qed.

Lemma evict_events (cfg : Config) (n : string) (s : CacheStorage) :
  events (evict cfg n s) = if current cfg n then [] else [EvDelete n].
Proof.
  unfold evict, current.
  destruct (String.eqb n (STATIC_CACHE cfg)), (String.eqb n (DYNAMIC_CACHE cfg)); reflexivity.
Qed.

Lemma evict_all_store (cfg : Config) (l : list string) (s : CacheStorage) :
  store (Promise_all (map (evict cfg) l) s) =
  List.filter (fun g => current cfg (fst g) || negb (existsb (String.eqb (fst g)) l)) s.
Proof.
  revert s. induction l as [|n l IH]; intros s.
  - cbn. symmetry. rewrite <- (filter_filter_pointwise (fun _ => true) (fun _ => true)).
    + induction s as [|g s IHs]; cbn; congruence.
    + intros g. now rewrite orb_true_r.
  - cbn [map Promise_all store]. rewrite IH, evict_store.
    destruct (current cfg n) eqn:Hn.
    + apply filter_ext. intros [m c]. cbn.
      destruct (String.eqb_spec m n) as [->|_]; [now rewrite Hn | reflexivity].
    + apply filter_filter_pointwise. intros [m c]. cbn.
      destruct (String.eqb_spec m n) as [->|_]; [now rewrite Hn | reflexivity].
Qed.

Lemma evict_all_events (cfg : Config) (l : list string) (s : CacheStorage) :
  events (Promise_all (map (evict cfg) l) s) =
  flat_map (fun n => if current cfg n then [] else [EvDelete n]) l.
Proof.
  revert s. induction l as [|n l IH]; intros s; [reflexivity |].
  cbn [map Promise_all events flat_map]. now rewrite IH, evict_events.
Qed.

Lemma activate_run (cfg : Config) (s : CacheStorage) :
  activate cfg s =
  let r := Promise_all (map (evict cfg) (names s)) s in
  {| outcome := match outcome r with
                | Returned _ => Returned tt
                | Thrown e => Thrown e
                end;
     store := store r;
     events := EvKeys :: EvClaim :: events r |}.
Proof.
  unfold activate, bind, clients_claim, emit, caches_keys, ret.
  cbn -[Promise_all names].
  set (r := Promise_all (map (evict cfg) (names s)) s).
  destruct (outcome r); cbn; [now rewrite app_nil_r | reflexivity].
Qed.

Lemma activate_store (cfg : Config) (s : CacheStorage) :
  store (activate cfg s) = List.filter (fun g => current cfg (fst g)) s.
Proof.
  rewrite activate_run. cbn -[Promise_all names].
  rewrite evict_all_store. apply filter_ext_in. intros g Hg.
  assert (E : existsb (String.eqb (fst g)) (names s) = true).
  { apply existsb_exists. exists (fst g). split; [now apply in_map | apply String.eqb_refl]. }
  rewrite E. apply orb_false_r.
Qed.

Lemma current_iff (cfg : Config) (name : string) :
  current cfg name = true <-> name = STATIC_CACHE cfg \/ name = DYNAMIC_CACHE cfg.
Proof.
  unfold current. rewrite orb_true_iff, !String.eqb_eq. tauto.
Qed.

(** C6: [activate] deletes exactly the generations whose name is neither the
    current static name nor the current dynamic name: the generations left
    are those of before with a current name, with their content, and the
    [caches.delete] calls are those for the other names. With the generations
    [v1-static], [v1-dynamic], [v0-static] and the stamps [v1-static],
    [v1-dynamic], it deletes [v0-static] and keeps the other two. *)
Theorem activate_evicts_stale (cfg : Config) (s : CacheStorage) :
  store (activate cfg s) = List.filter (fun g => current cfg (fst g)) s /\
  (forall name,
     In name (names (store (activate cfg s))) <->
     In name (names s) /\ (name = STATIC_CACHE cfg \/ name = DYNAMIC_CACHE cfg)) /\
  (forall name,
     In (EvDelete name) (events (activate cfg s)) <->
     In name (names s) /\ name <> STATIC_CACHE cfg /\ name <> DYNAMIC_CACHE cfg) /\
  names (store (activate scenario_v1 scenario_b)) = ["v1-static"; "v1-dynamic"] /\
  events (activate scenario_v1 scenario_b) = [EvKeys; EvClaim; EvDelete "v0-static"].
Proof.
  split; [apply activate_store |]. split; [| split; [| split; reflexivity]].
  - intros name. rewrite activate_store. unfold names. rewrite !in_map_iff. split.
    + intros ([n c] & <- & Hin). apply filter_In in Hin as [Hin Hc]. cbn in *.
      split; [exists (n, c); auto | now apply current_iff].
    + intros (([n c] & <- & Hin) & Hc). exists (n, c). split; [reflexivity |].
      apply filter_In. split; [exact Hin | now apply current_iff].
  - intros name. rewrite activate_run. cbn -[Promise_all names].
    rewrite evict_all_events, in_flat_map. split.
    + intros [H|[H|(n & Hin & H)]]; try discriminate.
      destruct (current cfg n) eqn:Hc; cbn in H; [tauto |].
      destruct H as [H|[]]. inversion H; subst n. split; [exact Hin |].
      rewrite <- (not_true_iff_false (current cfg name)), current_iff in Hc. tauto.
    + intros (Hin & Hs & Hd). right. right. exists name. split; [exact Hin |].
      destruct (current cfg name) eqn:Hc; [apply current_iff in Hc; tauto | now left].
Qed.

(** C9: activating twice leaves the same generations as activating once. *)
Theorem activate_idempotent (cfg : Config) (s : CacheStorage) :
  store (activate cfg (store (activate cfg s))) = store (activate cfg s) /\
  names (store (activate cfg (store (activate cfg s)))) = names (store (activate cfg s)).
Proof.
  assert (H : store (activate cfg (store (activate cfg s))) = store (activate cfg s)).
  { rewrite !activate_store. apply filter_filter_pointwise. intros g. apply andb_diag. }
  split; [exact H | now rewrite H].
Qed.

(** * Further properties of the handlers *)

(** ** The strategies: what they return and what they leave alone *)

Lemma networkFirst_offline (h : Host) (cfg : Config) (request : Request)
    (s : CacheStorage) (t : N) :
  network h (url request) = Rejects t ->
  networkFirst h cfg request s =
  match lookup_all (url request) s with
  | Some r =>
      {| outcome := Returned r; store := s;
         events := [EvFetch (url request); EvMatch (url request)] |}
  | None =>
      if opt_includes (accept request) "text/html" then
        {| outcome := Returned (default unavailable_content (lookup_all (resolve h "/") s));
           store := s;
           events := [EvFetch (url request); EvMatch (url request);
                      EvMatch (resolve h "/")] |}
      else
        {| outcome := Returned unavailable_content; store := s;
           events := [EvFetch (url request); EvMatch (url request)] |}
  end.
Proof.
  intros H. unfold networkFirst, try_catch, bind, fetch, caches_match. cbn. rewrite H. cbn.
  destruct (lookup_all (url request) s); cbn; [reflexivity |].
  destruct (opt_includes (accept request) "text/html"); cbn; [| reflexivity].
  destruct (lookup_all (resolve h "/") s); reflexivity.
Qed.

Lemma networkWithTimeout_run (h : Host) (request : Request) (timeout : N) (s : CacheStorage) :
  exists r,
    networkWithTimeout h request timeout s =
    {| outcome := Returned r; store := s; events := [EvFetch (url request)] |}.
Proof.
  unfold networkWithTimeout, try_catch, race_fetch. cbn.
  destruct (network h (url request)) as [t resp|t]; destruct (t <? timeout)%N; cbn; eauto.
Qed.

(** The store a strategy leaves: the one it found, or that one with the ok
    response of the fetch written under the request's key in the static or
    the dynamic generation. *)
Lemma respond_store (h : Host) (cfg : Config) (st : Strategy) (request : Request)
    (s : CacheStorage) :
  store (respond h cfg st request s) = s \/
  exists target t resp,
    (target = STATIC_CACHE cfg \/ target = DYNAMIC_CACHE cfg) /\
    network h (url request) = Fulfils t resp /\ ok resp = true /\
    store (respond h cfg st request s) =
      put_entry target (url request) resp (open_generation target s).
Proof.
  destruct st as [| |timeout]; cbn [respond].
  - destruct (lookup_all (url request) s) as [cached|] eqn:E.
    + rewrite (cacheFirst_hit _ _ _ _ _ E). now left.
    + rewrite (cacheFirst_miss _ _ _ _ E).
      destruct (network h (url request)) as [t resp|t] eqn:Hnet; [| now left].
      destruct (ok resp) eqn:Hok; [| now left].
      right. exists (STATIC_CACHE cfg), t, resp. auto.
  - destruct (network h (url request)) as [t resp|t] eqn:Hnet.
    + rewrite (networkFirst_fetched _ _ _ _ _ _ Hnet).
      destruct (ok resp) eqn:Hok; [| now left].
      right. exists (DYNAMIC_CACHE cfg), t, resp. auto.
    + left. now apply (networkFirst_offline_store _ _ _ _ t).
  - destruct (networkWithTimeout_run h request timeout s) as [r ->]. now left.
Qed.

(** X1: whatever the network answers and whatever the caches hold, each of
    the three strategies ends with a response, never with a rejection. *)
Theorem strategies_never_reject (h : Host) (cfg : Config) (st : Strategy)
    (request : Request) (s : CacheStorage) :
  exists r, outcome (respond h cfg st request s) = Returned r.
Proof.
  destruct st as [| |timeout]; cbn [respond].
  - destruct (lookup_all (url request) s) as [cached|] eqn:E.
    + rewrite (cacheFirst_hit _ _ _ _ _ E). eauto.
    + rewrite (cacheFirst_miss _ _ _ _ E).
      destruct (network h (url request)) as [t resp|t]; [| eauto].
      destruct (ok resp); eauto.
  - destruct (network h (url request)) as [t resp|t] eqn:Hnet.
    + rewrite (networkFirst_fetched _ _ _ _ _ _ Hnet). destruct (ok resp); eauto.
    + rewrite (networkFirst_offline _ _ _ _ _ Hnet).
      destruct (lookup_all (url request) s); [eauto |].
      destruct (opt_includes (accept request) "text/html"); eauto.
  - destruct (networkWithTimeout_run h request timeout s) as [r ->]. eauto.
Qed.

(** X2: no strategy retries: [cacheFirst] calls [fetch] at most once, and not
    at all when some generation holds the request; [networkFirst] and
    [networkWithTimeout] call it exactly once. *)
Theorem strategies_fetch_once (h : Host) (cfg : Config) (request : Request) (s : CacheStorage) :
  fetches (events (cacheFirst h cfg request s)) =
    match lookup_all (url request) s with
    | Some _ => 0
    | None => 1
    end /\
  fetches (events (networkFirst h cfg request s)) = 1 /\
  (forall timeout, fetches (events (networkWithTimeout h request timeout s)) = 1).
Proof.
  split; [| split].
  - destruct (lookup_all (url request) s) as [cached|] eqn:E.
    + now rewrite (cacheFirst_hit _ _ _ _ _ E).
    + rewrite (cacheFirst_miss _ _ _ _ E).
      destruct (network h (url request)) as [t resp|t]; [| reflexivity].
      now destruct (ok resp).
  - destruct (network h (url request)) as [t resp|t] eqn:Hnet.
    + rewrite (networkFirst_fetched _ _ _ _ _ _ Hnet). now destruct (ok resp).
    + rewrite (networkFirst_offline _ _ _ _ _ Hnet).
      destruct (lookup_all (url request) s); [reflexivity |].
      now destruct (opt_includes (accept request) "text/html").
  - intros timeout. now destruct (networkWithTimeout_run h request timeout s) as [r ->].
Qed.

Lemma stored_ok_open (name : string) (s : CacheStorage) :
  stored_ok s -> stored_ok (open_generation name s).
Proof.
  intros H. unfold open_generation. destruct (has_generation name s); [exact H |].
  apply Forall_app. split; [exact H |].
  constructor; [apply map_Forall_empty | constructor].
Qed.

Lemma stored_ok_put (name key : string) (r : Response) (s : CacheStorage) :
  ok r = true -> stored_ok s -> stored_ok (put_entry name key r s).
Proof.
  intros Hr H. induction H as [|[n c] s Hc Hs IH]; cbn; [constructor |].
  destruct (String.eqb n name).
  - constructor; [| exact Hs]. cbn in *. now apply map_Forall_insert_2.
  - constructor; [exact Hc | exact IH].
Qed.

Lemma lookup_all_stored_ok (key : string) (s : CacheStorage) (r : Response) :
  stored_ok s -> lookup_all key s = Some r -> ok r = true.
Proof.
  intros H. induction H as [|[n c] s Hc Hs IH]; cbn; [discriminate |].
  destruct (c !! key) as [r'|] eqn:E; [| exact IH].
  intros [= <-]. exact (Hc key r' E).
Qed.

(** X3: answering a request never evicts: every generation that exists
    before a strategy runs exists afterwards, and every key that has an entry
    in a generation still has one. *)
Theorem strategies_never_evict (h : Host) (cfg : Config) (st : Strategy)
    (request : Request) (s : CacheStorage) :
  (forall name, is_Some (generation name s) ->
                is_Some (generation name (store (respond h cfg st request s)))) /\
  (forall name key, is_Some (entry name key s) ->
                    is_Some (entry name key (store (respond h cfg st request s)))).
Proof.
  destruct (respond_store h cfg st request s)
    as [->|(target & t & resp & _ & _ & _ & ->)]; [auto |].
  split.
  - intros name H. rewrite generation_put_open.
    destruct (String.eqb name target); [eauto | exact H].
  - intros name key H.
    destruct (String.eqb_spec name target) as [->|Hn].
    + destruct (String.eqb_spec key (url request)) as [->|Hk].
      * rewrite entry_put_open_same. eauto.
      * now rewrite entry_put_open_other by auto.
    + now rewrite entry_put_open_other by auto.
Qed.

(** X4: the strategies store ok responses only: if every stored response is
    ok before a strategy runs, every stored response is ok afterwards, and a
    response that [cacheFirst] serves from such caches is ok. *)
Theorem strategies_store_ok_only (h : Host) (cfg : Config) (st : Strategy)
    (request : Request) (s : CacheStorage) (Hs : stored_ok s) :
  stored_ok (store (respond h cfg st request s)) /\
  (forall cached, lookup_all (url request) s = Some cached ->
     outcome (cacheFirst h cfg request s) = Returned cached /\ ok cached = true).
Proof.
  split.
  - destruct (respond_store h cfg st request s)
      as [->|(target & t & resp & _ & _ & Hok & ->)]; [exact Hs |].
    apply stored_ok_put; [exact Hok |]. now apply stored_ok_open.
  - intros cached E. rewrite (cacheFirst_hit _ _ _ _ _ E). cbn.
    split; [reflexivity |]. exact (lookup_all_stored_ok _ _ _ Hs E).
Qed.

(** The theorem on an empty storage and a first request. *)
Lemma strategies_store_ok_only_witness :
  stored_ok [] /\ stored_ok (store (respond online sw NetworkFirst x_png [])).
Proof.
  assert (H : stored_ok []) by apply Forall_nil_2.
  split; [exact H |].
  exact (proj1 (strategies_store_ok_only online sw NetworkFirst x_png [] H)).
Defined.

(** X5: a response of the network that is not ok, a 404 or a 500, is what
    [networkFirst] returns, as it is: nothing is stored and the caches are not
    consulted, even when they hold a copy for the request. *)
Theorem networkFirst_passes_error_status (h : Host) (cfg : Config) (request : Request)
    (s : CacheStorage) (t : N) (resp : Response)
    (Hnet : network h (url request) = Fulfils t resp) (Hbad : ok resp = false) :
  outcome (networkFirst h cfg request s) = Returned resp /\
  store (networkFirst h cfg request s) = s /\
  existsb is_cache_read (events (networkFirst h cfg request s)) = false /\
  existsb is_cache_write (events (networkFirst h cfg request s)) = false.
Proof.
  rewrite (networkFirst_fetched _ _ _ _ _ _ Hnet), Hbad. cbn. auto.
Qed.

(** The theorem where the installed caches hold the image and the server
    answers 404. *)
Lemma networkFirst_passes_error_status_witness :
  network host_404 (url magnesio) = Fulfils 20 not_found /\
  ok not_found = false /\
  lookup_all (url magnesio) installed = Some (page_of (url magnesio)) /\
  outcome (networkFirst host_404 sw magnesio installed) = Returned not_found.
Proof.
  split; [reflexivity |]. split; [reflexivity |]. split; [vm_compute; reflexivity |].
  exact (proj1 (networkFirst_passes_error_status host_404 sw magnesio installed 20 not_found
                  eq_refl eq_refl)).
Defined.

(** X6: when the fetch is rejected, [networkFirst] writes nothing and answers
    with the entry [caches.match] finds for the request; without one, for a
    request that accepts [text/html], with the entry found for the root page
    ['/']; and otherwise with the 503 response
    ['Contenido no disponible offline']. *)
Theorem networkFirst_offline_fallback (h : Host) (cfg : Config) (request : Request)
    (s : CacheStorage) (t : N) (Hnet : network h (url request) = Rejects t) :
  store (networkFirst h cfg request s) = s /\
  existsb is_cache_write (events (networkFirst h cfg request s)) = false /\
  outcome (networkFirst h cfg request s) =
    Returned
      match lookup_all (url request) s with
      | Some cached => cached
      | None =>
          if opt_includes (accept request) "text/html"
          then default unavailable_content (lookup_all (resolve h "/") s)
          else unavailable_content
      end /\
  status unavailable_content = 503%N.
Proof.
  rewrite (networkFirst_offline _ _ _ _ _ Hnet).
  destruct (lookup_all (url request) s); cbn; [auto |].
  destruct (opt_includes (accept request) "text/html"); cbn; auto.
Qed.

(** The theorem for a navigation while offline: the installed root page is
    the answer. *)
Lemma networkFirst_offline_fallback_witness :
  network offline (url ofertas) = Rejects 20 /\
  lookup_all (url ofertas) installed = None /\
  outcome (networkFirst offline sw ofertas installed) = Returned (page_of (site +:+ "/")).
Proof.
  split; [reflexivity |]. split; [vm_compute; reflexivity |].
  destruct (networkFirst_offline_fallback offline sw ofertas installed 20 eq_refl)
    as (_ & _ & H & _).
  rewrite H. vm_compute. reflexivity.
Defined.

Lemma cacheFirst_twice (h h' : Host) (cfg : Config) (request : Request)
    (s : CacheStorage) (t : N) (resp : Response) :
  lookup_all (url request) s = None ->
  network h (url request) = Fulfils t resp -> ok resp = true ->
  outcome (cacheFirst h cfg request s) = Returned resp /\
  cacheFirst h' cfg request (store (cacheFirst h cfg request s)) =
  {| outcome := Returned resp;
     store := store (cacheFirst h cfg request s);
     events := [EvMatch (url request)] |}.
Proof.
  intros Hmiss Hnet Hok.
  rewrite (cacheFirst_miss _ _ _ _ Hmiss), Hnet, Hok. cbn [outcome store].
  split; [reflexivity |].
  apply cacheFirst_hit. apply lookup_all_put_open. left. now apply lookup_all_holder.
Qed.

(** X7: once [cacheFirst] has fetched and stored an ok response for a request
    that no generation held, a second [cacheFirst] for the same request
    returns that response without a fetch and without a write, whatever the
    network would answer by then. *)
Theorem cacheFirst_then_from_cache (h h' : Host) (cfg : Config) (request : Request)
    (s : CacheStorage) (t : N) (resp : Response)
    (Hmiss : lookup_all (url request) s = None)
    (Hnet : network h (url request) = Fulfils t resp) (Hok : ok resp = true) :
  outcome (cacheFirst h cfg request s) = Returned resp /\
  outcome (cacheFirst h' cfg request (store (cacheFirst h cfg request s))) = Returned resp /\
  fetches (events (cacheFirst h' cfg request (store (cacheFirst h cfg request s)))) = 0 /\
  store (cacheFirst h' cfg request (store (cacheFirst h cfg request s))) =
    store (cacheFirst h cfg request s).
Proof.
  destruct (cacheFirst_twice h h' cfg request s t resp Hmiss Hnet Hok) as [H1 H2].
  rewrite H2. cbn. auto.
Qed.

(** The theorem for a page fetched once and asked again after the site has
    changed. *)
Lemma cacheFirst_then_from_cache_witness :
  lookup_all (url ofertas) installed = None /\
  network online (url ofertas) = Fulfils 20 (page_of (url ofertas)) /\
  ok (page_of (url ofertas)) = true /\
  fetched updated (url ofertas) <> Some (page_of (url ofertas)) /\
  outcome (cacheFirst updated sw ofertas (store (cacheFirst online sw ofertas installed)))
    = Returned (page_of (url ofertas)).
Proof.
  assert (Hmiss : lookup_all (url ofertas) installed = None) by (vm_compute; reflexivity).
  split; [exact Hmiss |]. split; [reflexivity |]. split; [reflexivity |].
  split; [vm_compute; discriminate |].
  exact (proj1 (proj2 (cacheFirst_then_from_cache online updated sw ofertas installed 20
                         (page_of (url ofertas)) Hmiss eq_refl eq_refl))).
Defined.

Lemma fetch_event_slash (h : Host) (cfg : Config) (request : Request) :
  In "/" (STATIC_ASSETS cfg) -> method request = "GET" -> absolute_url (url request) ->
  fetch_event h cfg request = cacheFirst h cfg request.
Proof.
  intros Hentry Hget Habs.
  assert (Hs : isStaticAsset cfg (url request) = true).
  { apply isStaticAsset_occurs. left. exists "/". split; [exact Hentry |].
    apply occurs_char. now apply absolute_url_has_slash. }
  unfold fetch_event, on_fetch, classify. now rewrite Hget, Hs.
Qed.

Lemma later_events_from_cache (cfg : Config) (request : Request) (resp : Response)
    (hs : list Host) (s : CacheStorage) :
  In "/" (STATIC_ASSETS cfg) -> method request = "GET" -> absolute_url (url request) ->
  lookup_all (url request) s = Some resp ->
  Forall (fun r => outcome r = Returned resp /\ fetches (events r) = 0 /\ store r = s)
         (later_events cfg request hs s).
Proof.
  intros Hentry Hget Habs Hhit. induction hs as [|h' hs IH]; cbn [later_events].
  - constructor.
  - rewrite (fetch_event_slash _ _ _ Hentry Hget Habs), (cacheFirst_hit _ _ _ _ _ Hhit).
    constructor; [cbn; auto | exact IH].
Qed.

(** X8: with ['/'] in the static-asset list, once the first ok answer to a
    GET request of an absolute URL has been stored, it is the answer of every
    later fetch event for that request, however many there are and whatever
    the site serves by then, as long as nothing but these fetch events
    touches the caches: each is served from the cache with no fetch and
    leaves the caches as they are. *)
Theorem first_answer_is_served_forever (h h' : Host) (cfg : Config) (request : Request)
    (s : CacheStorage) (t : N) (resp : Response)
    (Hentry : In "/" (STATIC_ASSETS cfg))
    (Hget : method request = "GET") (Habs : absolute_url (url request))
    (Hmiss : lookup_all (url request) s = None)
    (Hnet : network h (url request) = Fulfils t resp) (Hok : ok resp = true) :
  outcome (fetch_event h cfg request s) = Returned resp /\
  outcome (fetch_event h' cfg request (store (fetch_event h cfg request s))) = Returned resp /\
  fetches (events (fetch_event h' cfg request (store (fetch_event h cfg request s)))) = 0 /\
  forall hs : list Host,
    Forall (fun r => outcome r = Returned resp /\ fetches (events r) = 0 /\
                     store r = store (fetch_event h cfg request s))
           (later_events cfg request hs (store (fetch_event h cfg request s))).
Proof.
  assert (Hhit : lookup_all (url request) (store (fetch_event h cfg request s)) = Some resp).
  { rewrite (fetch_event_slash _ _ _ Hentry Hget Habs), (cacheFirst_miss _ _ _ _ Hmiss).
    rewrite Hnet, Hok. cbn [store].
    apply lookup_all_put_open. left. now apply lookup_all_holder. }
  split; [| split; [| split]].
  - rewrite (fetch_event_slash _ _ _ Hentry Hget Habs).
    exact (proj1 (cacheFirst_twice h h' cfg request s t resp Hmiss Hnet Hok)).
  - rewrite (fetch_event_slash h' _ _ Hentry Hget Habs).
    now rewrite (cacheFirst_hit _ _ _ _ _ Hhit).
  - rewrite (fetch_event_slash h' _ _ Hentry Hget Habs).
    now rewrite (cacheFirst_hit _ _ _ _ _ Hhit).
  - intros hs. now apply later_events_from_cache.
Qed.

(** The theorem for the navigation to [/ofertas] under the constants of
    [sw.js]: after the first visit the changed page is never fetched. *)
Lemma first_answer_is_served_forever_witness :
  In "/" (STATIC_ASSETS sw) /\
  method ofertas = "GET" /\
  absolute_url (url ofertas) /\
  lookup_all (url ofertas) installed = None /\
  network online (url ofertas) = Fulfils 20 (page_of (url ofertas)) /\
  ok (page_of (url ofertas)) = true /\
  outcome (fetch_event updated sw ofertas (store (fetch_event online sw ofertas installed)))
    = Returned (page_of (url ofertas)).
Proof.
  assert (Hentry : In "/" (STATIC_ASSETS sw)) by (simpl; auto).
  assert (Habs : absolute_url (url ofertas)).
  { exists "https", "josealarconortega.github.io/ofertas". reflexivity. }
  assert (Hmiss : lookup_all (url ofertas) installed = None) by (vm_compute; reflexivity).
  split; [exact Hentry |]. split; [reflexivity |]. split; [exact Habs |].
  split; [exact Hmiss |]. split; [reflexivity |]. split; [reflexivity |].
  exact (proj1 (proj2 (first_answer_is_served_forever online updated sw ofertas installed 20
                         (page_of (url ofertas)) Hentry eq_refl Habs Hmiss eq_refl eq_refl))).
Defined.

(** ** Installation: what it stores *)

Lemma generation_open (name : string) (s : CacheStorage) (name' : string) :
  generation name' (open_generation name s) =
  if String.eqb name' name then Some (default ∅ (generation name s)) else generation name' s.
Proof.
  induction s as [|[n c] s IH].
  - cbn. now rewrite (String.eqb_sym name name').
  - rewrite open_generation_cons, (String.eqb_sym name n).
    destruct (String.eqb_spec n name) as [->|Hn]; cbn.
    + rewrite String.eqb_refl. cbn. rewrite (String.eqb_sym name name').
      now destruct (String.eqb name' name).
    + destruct (String.eqb_spec n name) as [?|_]; [contradiction |]. cbn.
      rewrite IH.
      destruct (String.eqb_spec n name') as [<-|Hn']; [| reflexivity].
      destruct (String.eqb_spec n name); [contradiction | reflexivity].
Qed.

Lemma generation_put_entry (name key : string) (r : Response) (s : CacheStorage)
    (name' : string) :
  generation name' (put_entry name key r s) =
  if String.eqb name' name then insert key r <$> generation name s else generation name' s.
Proof.
  induction s as [|[n c] s IH]; cbn.
  - now destruct (String.eqb name' name).
  - destruct (String.eqb_spec n name) as [->|Hn]; cbn.
    + rewrite (String.eqb_sym name name'). now destruct (String.eqb name' name).
    + rewrite IH. destruct (String.eqb_spec n name') as [<-|Hn']; [| reflexivity].
      destruct (String.eqb_spec n name); [contradiction | reflexivity].
Qed.

Lemma generation_put_entries (name : string) (l : list (string * Response)) (s : CacheStorage)
    (name' : string) :
  generation name' (put_entries name l s) =
  if String.eqb name' name
  then (fun c => fold_left (fun acc kr => <[fst kr := snd kr]> acc) l c) <$> generation name s
  else generation name' s.
Proof.
  unfold put_entries. revert s. induction l as [|[k r] l IH]; intros s; cbn.
  - destruct (String.eqb_spec name' name) as [->|_]; [| reflexivity].
    now destruct (generation name s).
  - rewrite IH, !generation_put_entry, String.eqb_refl.
    destruct (String.eqb name' name); [| reflexivity]. now destruct (generation name s).
Qed.

Lemma fetch_all_ok_lookup (h : Host) (keys : list string) (l : list (string * Response))
    (c : gmap string Response) (key : string) :
  fetch_all_ok h keys = Some l ->
  fold_left (fun acc kr => <[fst kr := snd kr]> acc) l c !! key =
  if existsb (String.eqb key) keys then fetched h key else c !! key.
Proof.
  revert l c. induction keys as [|k keys IH]; intros l c H; cbn in H.
  - injection H as <-. reflexivity.
  - destruct (network h k) as [t r|t] eqn:Hnet; [| discriminate].
    destruct (ok r); [| discriminate].
    destruct (fetch_all_ok h keys) as [l'|]; [| discriminate].
    injection H as <-. cbn. rewrite (IH l' _ eq_refl).
    destruct (existsb (String.eqb key) keys); [now rewrite orb_true_r |].
    rewrite orb_false_r.
    destruct (String.eqb_spec key k) as [->|Hk].
    + rewrite lookup_insert_eq. unfold fetched. now rewrite Hnet.
    + now rewrite lookup_insert_ne by congruence.
Qed.

Lemma fetch_all_ok_each (h : Host) (keys : list string) (l : list (string * Response))
    (key : string) :
  fetch_all_ok h keys = Some l -> In key keys ->
  exists t r, network h key = Fulfils t r /\ ok r = true.
Proof.
  revert l. induction keys as [|k keys IH]; intros l H Hin; [destruct Hin |].
  cbn in H. destruct (network h k) as [t r|t] eqn:Hnet; [| discriminate].
  destruct (ok r) eqn:Hok; [| discriminate].
  destruct (fetch_all_ok h keys) as [l'|]; [| discriminate].
  destruct Hin as [->|Hin]; [eauto | exact (IH l' eq_refl Hin)].
Qed.

Lemma fetch_all_ok_bad (h : Host) (keys : list string) (key : string) :
  In key keys -> (forall t r, network h key = Fulfils t r -> ok r = false) ->
  fetch_all_ok h keys = None.
Proof.
  intros Hin Hbad. destruct (fetch_all_ok h keys) as [l|] eqn:E; [| reflexivity].
  destruct (fetch_all_ok_each _ _ _ _ E Hin) as (t & r & Hnet & Hok).
  rewrite (Hbad _ _ Hnet) in Hok. discriminate.
Qed.

(** One step of [install]: open a generation and [addAll] some paths. *)
Lemma open_addAll_entry (h : Host) (name : string) (paths : list string) (s : CacheStorage)
    (name' key : string) :
  entry name' key (store (bind (caches_open name) (fun cache => cache_addAll h cache paths) s)) =
  match fetch_all_ok h (map (resolve h) paths) with
  | Some _ =>
      if String.eqb name' name && existsb (String.eqb key) (map (resolve h) paths)
      then fetched h key
      else entry name' key s
  | None => entry name' key s
  end.
Proof.
  assert (Hopen : entry name' key (open_generation name s) = entry name' key s).
  { unfold entry. rewrite generation_open.
    destruct (String.eqb_spec name' name) as [->|_]; [| reflexivity].
    now destruct (generation name s). }
  unfold bind, caches_open, cache_addAll. cbn.
  destruct (fetch_all_ok h (map (resolve h) paths)) as [l|] eqn:E; cbn; [| exact Hopen].
  unfold entry at 1. rewrite generation_put_entries, generation_open.
  destruct (String.eqb_spec name' name) as [->|Hn]; cbn.
  - rewrite String.eqb_refl. cbn. rewrite (fetch_all_ok_lookup _ _ _ _ _ E).
    destruct (existsb (String.eqb key) (map (resolve h) paths)); [reflexivity |].
    unfold entry. now destruct (generation name s).
  - exact Hopen.
Qed.

Lemma install_store (h : Host) (cfg : Config) (s : CacheStorage) :
  store (install h cfg s) = store (dynamic_priming h cfg (store (static_populate h cfg s))).
Proof.
  unfold install, bind at 1 2, skipWaiting, emit, ret.
  cbn -[static_populate dynamic_priming].
  destruct (outcome (static_populate h cfg s)),
           (outcome (dynamic_priming h cfg (store (static_populate h cfg s)))); reflexivity.
Qed.

(** The entries after [install], in terms of those before and of what the
    two [addAll] steps fetched. *)
Lemma install_entry (h : Host) (cfg : Config) (s : CacheStorage) (name key : string) :
  entry name key (store (install h cfg s)) =
  let after_static :=
    match fetch_all_ok h (map (resolve h) (STATIC_ASSETS cfg)) with
    | Some _ =>
        if String.eqb name (STATIC_CACHE cfg) &&
           existsb (String.eqb key) (map (resolve h) (STATIC_ASSETS cfg))
        then fetched h key
        else entry name key s
    | None => entry name key s
    end in
  match fetch_all_ok h (map (resolve h) (priming_subset cfg)) with
  | Some _ =>
      if String.eqb name (DYNAMIC_CACHE cfg) &&
         existsb (String.eqb key) (map (resolve h) (priming_subset cfg))
      then fetched h key
      else after_static
  | None => after_static
  end.
Proof.
  rewrite install_store. unfold dynamic_priming, static_populate.
  rewrite open_addAll_entry. fold (priming_subset cfg).
  cbv zeta. now rewrite open_addAll_entry.
Qed.

Lemma existsb_eqb_In (key : string) (keys : list string) :
  existsb (String.eqb key) keys = true <-> In key keys.
Proof.
  rewrite existsb_exists. split.
  - intros (k & Hin & E). apply String.eqb_eq in E. now subst.
  - intros Hin. exists key. split; [exact Hin | apply String.eqb_refl].
Qed.

Lemma entry_lookup_all (name key : string) (s : CacheStorage) :
  is_Some (entry name key s) -> is_Some (lookup_all key s).
Proof.
  unfold entry. induction s as [|[n c] s IH]; cbn; [intros [x H]; discriminate |].
  destruct (c !! key) as [r|] eqn:E; [eauto |].
  destruct (String.eqb n name); [rewrite E; intros [x H]; discriminate | exact IH].
Qed.

Lemma install_ok_fetches (h : Host) (cfg : Config) (s : CacheStorage) :
  outcome (install h cfg s) = Returned tt ->
  is_Some (fetch_all_ok h (map (resolve h) (STATIC_ASSETS cfg))) /\
  is_Some (fetch_all_ok h (map (resolve h) (priming_subset cfg))).
Proof.
  rewrite install_outcome, static_populate_outcome, dynamic_priming_outcome.
  fold (priming_subset cfg).
  destruct (fetch_all_ok h (map (resolve h) (STATIC_ASSETS cfg))); [| discriminate].
  destruct (fetch_all_ok h (map (resolve h) (priming_subset cfg))); [| discriminate].
  eauto.
Qed.

(** X9: after an installation that succeeds, the static generation holds,
    under the resolved URL of every static asset, the ok response its fetch
    gave, and the dynamic generation likewise for the priming subset; a
    [cacheFirst] for any of these URLs is then answered without a fetch. *)
Theorem install_populates (h : Host) (cfg : Config) (s : CacheStorage)
    (Hinstalled : outcome (install h cfg s) = Returned tt) :
  (forall asset, In asset (STATIC_ASSETS cfg) ->
     exists t r, network h (resolve h asset) = Fulfils t r /\ ok r = true /\
       entry (STATIC_CACHE cfg) (resolve h asset) (store (install h cfg s)) = Some r) /\
  (forall image, In image (priming_subset cfg) ->
     exists t r, network h (resolve h image) = Fulfils t r /\ ok r = true /\
       entry (DYNAMIC_CACHE cfg) (resolve h image) (store (install h cfg s)) = Some r) /\
  (forall path h' request,
     In path (STATIC_ASSETS cfg ++ priming_subset cfg) -> url request = resolve h path ->
     fetches (events (cacheFirst h' cfg request (store (install h cfg s)))) = 0).
Proof.
  destruct (install_ok_fetches _ _ _ Hinstalled) as [[l1 E1] [l2 E2]].
  assert (Hstatic : forall asset, In asset (STATIC_ASSETS cfg) ->
     exists t r, network h (resolve h asset) = Fulfils t r /\ ok r = true /\
       entry (STATIC_CACHE cfg) (resolve h asset) (store (install h cfg s)) = Some r).
  { intros asset Hin. apply (in_map (resolve h)) in Hin.
    destruct (fetch_all_ok_each _ _ _ _ E1 Hin) as (t & r & Hnet & Hok).
    exists t, r. split; [exact Hnet |]. split; [exact Hok |].
    rewrite install_entry. cbv zeta. rewrite E1, E2, String.eqb_refl.
    apply existsb_eqb_In in Hin. rewrite Hin. cbn.
    unfold fetched. rewrite Hnet. now destruct (_ && _). }
  assert (Hdynamic : forall image, In image (priming_subset cfg) ->
     exists t r, network h (resolve h image) = Fulfils t r /\ ok r = true /\
       entry (DYNAMIC_CACHE cfg) (resolve h image) (store (install h cfg s)) = Some r).
  { intros image Hin. apply (in_map (resolve h)) in Hin.
    destruct (fetch_all_ok_each _ _ _ _ E2 Hin) as (t & r & Hnet & Hok).
    exists t, r. split; [exact Hnet |]. split; [exact Hok |].
    rewrite install_entry. cbv zeta. rewrite E2, String.eqb_refl.
    apply existsb_eqb_In in Hin. rewrite Hin. cbn.
    unfold fetched. now rewrite Hnet. }
  split; [exact Hstatic |]. split; [exact Hdynamic |].
  intros path h' request Hin Hurl.
  assert (Hsome : is_Some (lookup_all (url request) (store (install h cfg s)))).
  { rewrite Hurl. apply in_app_or in Hin as [Hin|Hin].
    - destruct (Hstatic _ Hin) as (t & r & _ & _ & He).
      apply (entry_lookup_all (STATIC_CACHE cfg)). rewrite He. eauto.
    - destruct (Hdynamic _ Hin) as (t & r & _ & _ & He).
      apply (entry_lookup_all (DYNAMIC_CACHE cfg)). rewrite He. eauto. }
  destruct Hsome as [cached E]. now rewrite (cacheFirst_hit _ _ _ _ _ E).
Qed.

(** The theorem for the installation with the whole site reachable. *)
Lemma install_populates_witness :
  outcome (install online sw []) = Returned tt /\
  fetches (events (cacheFirst offline sw (get (site +:+ "/index.html"))
                     (store (install online sw [])))) = 0.
Proof.
  assert (H : outcome (install online sw []) = Returned tt) by (vm_compute; reflexivity).
  split; [exact H |].
  apply (proj2 (proj2 (install_populates online sw [] H)) "/index.html").
  - simpl. auto.
  - reflexivity.
Defined.

(** X10: the static step is all or nothing. If the fetch of one static asset
    is rejected or gives a response that is not ok, the installation is
    rejected and, the two generation names being different, no entry of the
    static generation is added or changed: the assets that were fetched are
    not kept either. *)
Theorem install_static_all_or_nothing (h : Host) (cfg : Config) (s : CacheStorage)
    (asset : string)
    (Hasset : In asset (STATIC_ASSETS cfg))
    (Hbad : forall t r, network h (resolve h asset) = Fulfils t r -> ok r = false)
    (Hnames : STATIC_CACHE cfg <> DYNAMIC_CACHE cfg) :
  outcome (install h cfg s) = Thrown TypeError /\
  forall key, entry (STATIC_CACHE cfg) key (store (install h cfg s)) =
              entry (STATIC_CACHE cfg) key s.
Proof.
  assert (E : fetch_all_ok h (map (resolve h) (STATIC_ASSETS cfg)) = None).
  { apply (fetch_all_ok_bad h _ (resolve h asset)); [now apply in_map | exact Hbad]. }
  split.
  - now rewrite install_outcome, static_populate_outcome, E.
  - intros key. rewrite install_entry. cbv zeta. rewrite E.
    destruct (String.eqb_spec (STATIC_CACHE cfg) (DYNAMIC_CACHE cfg)); [contradiction |].
    destruct (fetch_all_ok h (map (resolve h) (priming_subset cfg))); reflexivity.
Qed.

(** The theorem where [/manifest.json] alone answers 404: [/index.html] was
    fetched but is not in the static generation. *)
Lemma install_static_all_or_nothing_witness :
  In "/manifest.json" (STATIC_ASSETS sw) /\
  fetched manifest_missing (resolve manifest_missing "/manifest.json") = Some not_found /\
  ok not_found = false /\
  STATIC_CACHE sw <> DYNAMIC_CACHE sw /\
  outcome (install manifest_missing sw []) = Thrown TypeError /\
  entry (STATIC_CACHE sw) (site +:+ "/index.html") (store (install manifest_missing sw []))
    = None.
Proof.
  assert (Hin : In "/manifest.json" (STATIC_ASSETS sw)) by (simpl; auto 12).
  assert (Hbad : forall t r,
            network manifest_missing (resolve manifest_missing "/manifest.json") = Fulfils t r ->
            ok r = false).
  { intros t r H. vm_compute in H. now injection H as _ <-. }
  assert (Hne : STATIC_CACHE sw <> DYNAMIC_CACHE sw) by (simpl; discriminate).
  destruct (install_static_all_or_nothing manifest_missing sw [] "/manifest.json" Hin Hbad Hne)
    as [Hout Hentries].
  split; [exact Hin |]. split; [reflexivity |]. split; [reflexivity |].
  split; [exact Hne |]. split; [exact Hout |].
  rewrite Hentries. reflexivity.
Defined.

(** X11: [install] adds or changes an entry only under the resolved URL of a
    static asset in the static generation or of a path of the priming subset
    in the dynamic generation, and the new entry is the response fetched for
    that URL; every other entry of every generation is as it was. *)
Theorem install_touches_only_its_lists (h : Host) (cfg : Config) (s : CacheStorage)
    (name key : string) :
  entry name key (store (install h cfg s)) <> entry name key s ->
  entry name key (store (install h cfg s)) = fetched h key /\
  ((name = STATIC_CACHE cfg /\ In key (map (resolve h) (STATIC_ASSETS cfg))) \/
   (name = DYNAMIC_CACHE cfg /\ In key (map (resolve h) (priming_subset cfg)))).
Proof.
  rewrite install_entry. cbv zeta.
  destruct (String.eqb_spec name (STATIC_CACHE cfg)) as [Hs|Hs],
           (String.eqb_spec name (DYNAMIC_CACHE cfg)) as [Hd|Hd],
           (existsb (String.eqb key) (map (resolve h) (STATIC_ASSETS cfg))) eqn:E1,
           (existsb (String.eqb key) (map (resolve h) (priming_subset cfg))) eqn:E2,
           (fetch_all_ok h (map (resolve h) (STATIC_ASSETS cfg))),
           (fetch_all_ok h (map (resolve h) (priming_subset cfg)));
    cbn; intros H; try congruence;
    (split; [reflexivity |]);
    try (apply existsb_eqb_In in E1); try (apply existsb_eqb_In in E2); auto.
Qed.

(** The theorem at an entry the installation writes. *)
Lemma install_touches_only_its_lists_witness :
  entry (STATIC_CACHE sw) (site +:+ "/index.html") (store (install online sw []))
    <> entry (STATIC_CACHE sw) (site +:+ "/index.html") [] /\
  entry (STATIC_CACHE sw) (site +:+ "/index.html") (store (install online sw []))
    = fetched online (site +:+ "/index.html").
Proof.
  assert (H : entry (STATIC_CACHE sw) (site +:+ "/index.html") (store (install online sw []))
              <> entry (STATIC_CACHE sw) (site +:+ "/index.html") [])
    by (vm_compute; discriminate).
  split; [exact H |].
  exact (proj1 (install_touches_only_its_lists online sw [] _ _ H)).
Defined.

(** ** Installation followed by activation *)

Lemma names_put_entry (name key : string) (r : Response) (s : CacheStorage) :
  names (put_entry name key r s) = names s.
Proof.
  induction s as [|[n c] s IH]; cbn; [reflexivity |].
  destruct (String.eqb n name); cbn; [reflexivity | now f_equal].
Qed.

Lemma names_put_entries (name : string) (l : list (string * Response)) (s : CacheStorage) :
  names (put_entries name l s) = names s.
Proof.
  unfold put_entries. revert s. induction l as [|[k r] l IH]; intros s; cbn; [reflexivity |].
  now rewrite IH, names_put_entry.
Qed.

Lemma names_open_generation (name : string) (s : CacheStorage) (n : string) :
  In n (names (open_generation name s)) -> In n (names s) \/ n = name.
Proof.
  unfold open_generation. destruct (has_generation name s); [auto |].
  unfold names. rewrite map_app, in_app_iff. cbn. intuition.
Qed.

Lemma names_open_addAll (h : Host) (name : string) (paths : list string) (s : CacheStorage)
    (n : string) :
  In n (names (store (bind (caches_open name) (fun cache => cache_addAll h cache paths) s))) ->
  In n (names s) \/ n = name.
Proof.
  unfold bind, caches_open, cache_addAll. cbn.
  destruct (fetch_all_ok h (map (resolve h) paths)); cbn;
    [rewrite names_put_entries |]; apply names_open_generation.
Qed.

Lemma filter_all {A} (f : A -> bool) (l : list A) :
  (forall x, In x l -> f x = true) -> List.filter f l = l.
Proof.
  induction l as [|x l IH]; intros H; cbn; [reflexivity |].
  rewrite (H x) by now left. f_equal. apply IH. intros y Hy. apply H. now right.
Qed.

(** X12: when every generation there is bears a current name, as on an empty
    storage, the activation that follows an installation deletes nothing:
    the caches are those the installation left, whether it succeeded or
    not. *)
Theorem install_then_activate_keeps_all (h : Host) (cfg : Config) (s : CacheStorage)
    (Hcurrent : forall n, In n (names s) -> current cfg n = true) :
  store (activate cfg (store (install h cfg s))) = store (install h cfg s).
Proof.
  rewrite activate_store. apply filter_all. intros [n c] Hin. cbn.
  assert (Hn : In n (names (store (install h cfg s))))
    by (apply (in_map fst) in Hin; exact Hin).
  rewrite install_store in Hn. unfold dynamic_priming, static_populate in Hn.
  apply names_open_addAll in Hn as [Hn| ->].
  - apply names_open_addAll in Hn as [Hn| ->]; [now apply Hcurrent |].
    unfold current. now rewrite String.eqb_refl.
  - unfold current. rewrite String.eqb_refl. apply orb_true_r.
Qed.

(** The theorem for the first installation, on an empty storage. *)
Lemma install_then_activate_keeps_all_witness :
  (forall n, In n (names []) -> current sw n = true) /\
  store (activate sw installed) = installed.
Proof.
  assert (H : forall n, In n (names []) -> current sw n = true) by (intros n []).
  split; [exact H |].
  exact (install_then_activate_keeps_all online sw [] H).
Defined.

(** X13: activation keeps every entry of the generations with a current name
    and leaves no entry under any other name; afterwards [caches.match]
    answers from no other generation than the current ones. *)
Theorem activate_keeps_current_entries (cfg : Config) (s : CacheStorage) :
  (forall name key,
     entry name key (store (activate cfg s)) =
     if current cfg name then entry name key s else None) /\
  (forall key n, holder key (store (activate cfg s)) = Some n -> current cfg n = true).
Proof.
  rewrite activate_store. split.
  - intros name key. unfold entry.
    induction s as [|[n c] s IH]; cbn; [now destruct (current cfg name) |].
    destruct (current cfg n) eqn:Hn; cbn.
    + destruct (String.eqb_spec n name) as [->|_]; [now rewrite Hn | exact IH].
    + destruct (String.eqb_spec n name) as [->|_]; [now rewrite Hn in * | exact IH].
  - intros key n. induction s as [|[m c] s IH]; cbn; [discriminate |].
    destruct (current cfg m) eqn:Hm; cbn; [| exact IH].
    destruct (c !! key); [| exact IH]. intros [= <-]. exact Hm.
Qed.

(** ** The message handler: clearing *)

Lemma filter_none {A} (f : A -> bool) (l : list A) :
  (forall x, In x l -> f x = false) -> List.filter f l = [].
Proof.
  induction l as [|x l IH]; intros H; cbn; [reflexivity |].
  rewrite (H x) by now left. apply IH. intros y Hy. apply H. now right.
Qed.

Lemma delete_all_run (l : list string) (s : CacheStorage) :
  exists deleted,
    Promise_all (map caches_delete l) s =
    {| outcome := Returned deleted;
       store := List.filter (fun g => negb (existsb (String.eqb (fst g)) l)) s;
       events := map EvDelete l |}.
Proof.
  revert s. induction l as [|n l IH]; intros s.
  - exists []. cbn. unfold ret. now rewrite filter_all.
  - cbn [map Promise_all]. destruct (IH (store (caches_delete n s))) as [deleted ->].
    exists (has_generation n s :: deleted). cbn. f_equal.
    unfold delete_generation. apply filter_filter_pointwise.
    intros [m c]. cbn. now destruct (String.eqb m n).
Qed.

(** X14: [CLEAR_CACHE] deletes every generation, the current ones included:
    no generation is left, one [caches.delete] is issued per generation name,
    and the reply, posted after the deletions, is [{ success: true }]. *)
Theorem clear_cache_deletes_everything (cfg : Config) (s : CacheStorage) :
  store (on_message cfg (Some "CLEAR_CACHE") s) = [] /\
  events (on_message cfg (Some "CLEAR_CACHE") s) =
    EvKeys :: map EvDelete (names s) ++ [EvPostMessage (SuccessReply true)] /\
  outcome (on_message cfg (Some "CLEAR_CACHE") s) = Returned tt /\
  (forall h request,
     fetches (events (cacheFirst h cfg request (store (on_message cfg (Some "CLEAR_CACHE") s))))
       = 1).
Proof.
  assert (Hrun : on_message cfg (Some "CLEAR_CACHE") s =
                 {| outcome := Returned tt; store := [];
                    events := EvKeys :: map EvDelete (names s) ++
                              [EvPostMessage (SuccessReply true)] |}).
  { unfold on_message, bind, caches_keys, postMessage, emit, ret.
    cbn -[Promise_all names].
    destruct (delete_all_run (names s) s) as [deleted ->]. cbn -[names].
    f_equal. apply filter_none. intros g Hin.
    assert (E : existsb (String.eqb (fst g)) (names s) = true)
      by (apply existsb_eqb_In; now apply in_map).
    now rewrite E. }
  rewrite Hrun. cbn [store events outcome]. repeat split.
  intros h request. rewrite (cacheFirst_miss h cfg request [] eq_refl).
  destruct (network h (url request)) as [t r|t]; [destruct (ok r) |]; reflexivity.
Qed.

(** X15: a message of any other type, or without a type, leaves the caches
    alone: the store is unchanged and the handler issues no cache read and no
    cache write. *)
Theorem other_messages_leave_caches (cfg : Config) (data : option string) (s : CacheStorage)
    (Hother : has_type data "CLEAR_CACHE" = false) :
  outcome (on_message cfg data s) = Returned tt /\
  store (on_message cfg data s) = s /\
  existsb is_cache_read (events (on_message cfg data s)) = false /\
  existsb is_cache_write (events (on_message cfg data s)) = false /\
  (has_type data "SKIP_WAITING" = false -> has_type data "GET_VERSION" = false ->
   events (on_message cfg data s) = []).
Proof.
  unfold on_message. rewrite Hother.
  destruct (has_type data "SKIP_WAITING"), (has_type data "GET_VERSION"); cbn;
    repeat split; intros; discriminate.
Qed.

(** The theorem at a message type the handler does not know. *)
Lemma other_messages_leave_caches_witness :
  has_type (Some "PING") "CLEAR_CACHE" = false /\
  store (on_message sw (Some "PING") installed) = installed /\
  events (on_message sw (Some "PING") installed) = [].
Proof.
  destruct (other_messages_leave_caches sw (Some "PING") installed eq_refl)
    as (_ & Hs & _ & _ & He).
  split; [reflexivity |]. split; [exact Hs |]. exact (He eq_refl eq_refl).
Defined.

(** ** Online, then offline *)


